(** * ai-content-publisher: the job pipeline of [backend/src]

    A shallow embedding of the TypeScript sources

    - [jobs/queue.ts]               (queues, the two worker processors),
    - [services/llm.service.ts]     (the three LLM steps),
    - [services/wordpress.service.ts],
    - [routes/publish.ts], [routes/content.ts]

    together with the properties of the pipeline stated over it.

    Conventions.  JavaScript values that travel through request bodies, job
    payloads and remote responses are the JSON-shaped values of [JS.value].
    Strings are byte strings (UTF-8); where the sources count characters
    ([substring]) the model counts the UTF-16 code units of the text.
    A number [Dec m e] stands for the binary64 value nearest to the real
    [m * 10^e]: it is zero when that real rounds to zero and infinite when
    it rounds to an infinity; its digits are printed as they are written,
    which is what [Number::toString] prints for up to 15 significant digits.
    Code that can throw returns a [JS.Result]. *)

From Stdlib Require Import ZArith NArith String Ascii List Bool Lia.
From Stdlib Require Import DecimalString DecimalN DecimalPos.
From stdpp Require Import base option strings gmap list.

Set Warnings "-register-all".

Local Open Scope string_scope.
Local Open Scope list_scope.
Local Open Scope Z_scope.

(* ===================================================================== *)
(** * JavaScript values                                                   *)
(* ===================================================================== *)

Module JS.

(** The number type: [Dec m e] is the binary64 value nearest to the real
    [m * 10^e]. *)
Inductive number : Type :=
| NaN
| Dec (m : Z) (e : Z).

(** [m * 10^e] rounds to zero: it is at most [2^-1075], half of the least
    positive binary64 value (the tie goes to the even neighbour, zero). *)
Definition rounds_to_zero (m e : Z) : bool :=
  (m =? 0) || ((e <? 0) && (Z.abs m * 2 ^ 1075 <=? 10 ^ (- e))).

(** [m * 10^e] rounds to an infinity: it is at least [2^1024 - 2^970], the
    greatest finite binary64 value plus half of its last place (the tie goes
    to the even neighbour, the infinity). *)
Definition rounds_to_infinity (m e : Z) : bool :=
  if e <? 0 then (2 ^ 1024 - 2 ^ 970) * 10 ^ (- e) <=? Z.abs m
  else 2 ^ 1024 - 2 ^ 970 <=? Z.abs m * 10 ^ e.

(** JSON-shaped values.  An object keeps its own properties in insertion
    order, each key at most once (that integer-like keys enumerate first is
    not modelled; properties are only ever looked up by name). *)
Inductive value : Type :=
| VUndefined
| VNull
| VBool (b : bool)
| VNum (n : number)
| VString (s : string)
| VArray (xs : list value)
| VObject (ms : list (string * value)).

(** A thrown [Error]: its [name] and its [message]. *)
Record error : Type := Error { name : string; message : string }.

Inductive Result (A : Type) : Type :=
| Ok (a : A)
| Throw (e : error).
Arguments Ok {A} a.
Arguments Throw {A} e.

Definition TypeError (msg : string) : error := Error "TypeError" msg.
Definition SyntaxError (msg : string) : error := Error "SyntaxError" msg.
Definition RangeError (msg : string) : error := Error "RangeError" msg.

Definition int (z : Z) : value := VNum (Dec z 0).

(** ** ToBoolean and the [||] operator *)

Definition truthy (v : value) : bool :=
  match v with
  | VUndefined | VNull => false
  | VBool b => b
  | VNum NaN => false
  | VNum (Dec m e) => negb (rounds_to_zero m e)
  | VString s => negb (String.eqb s "")
  | VArray _ | VObject _ => true
  end.

(** [a || b] *)
Definition or_else (a b : value) : value := if truthy a then a else b.

(** [s || d] for [s : string | null]. *)
Definition string_or (s : option string) (d : string) : string :=
  match s with
  | Some (String c r) => String c r
  | Some EmptyString | None => d
  end.

(** ** Number::toString (radix 10) *)

Definition digits (n : N) : string := NilZero.string_of_uint (N.to_uint n).

Fixpoint zeros (n : nat) : string :=
  match n with
  | O => ""
  | S k => String "0" (zeros k)
  end.

(** Drops the zeros at the end of a digit string and counts them. *)
Fixpoint strip_trailing_zeros (s : string) : string * Z :=
  match s with
  | "" => ("", 0)
  | String c r =>
      let '(r', z) := strip_trailing_zeros r in
      if (String.eqb r' "") && (Ascii.eqb c "0") then ("", z + 1)
      else (String c r', z)
  end.

Definition Number_toString (x : number) : string :=
  match x with
  | NaN => "NaN"
  | Dec m e =>
      let sign := if m <? 0 then "-" else "" in
      let '(s, z) := strip_trailing_zeros (digits (Z.abs_N m)) in
      let k := Z.of_nat (String.length s) in
      let n := k + (e + z) in
      if rounds_to_zero m e then "0"
      else if rounds_to_infinity m e then sign +:+ "Infinity"
      else
      sign +:+
      (if (k <=? n) && (n <=? 21) then s +:+ zeros (Z.to_nat (n - k))
       else if (0 <? n) && (n <=? 21) then
         substring 0 (Z.to_nat n) s +:+ "." +:+
         substring (Z.to_nat n) (Z.to_nat (k - n)) s
       else if (-6 <? n) && (n <=? 0) then "0." +:+ zeros (Z.to_nat (- n)) +:+ s
       else
         let ex := n - 1 in
         let es := (if ex <? 0 then "-" else "+") +:+ digits (Z.abs_N ex) in
         match s with
         | String c "" => String c "" +:+ "e" +:+ es
         | String c r => String c "" +:+ "." +:+ r +:+ "e" +:+ es
         | "" => ""
         end)
  end.

(** ** ToString *)

Fixpoint join_with (sep : string) (parts : list string) : string :=
  match parts with
  | [] => ""
  | [p] => p
  | p :: rest => p +:+ sep +:+ join_with sep rest
  end.

(** Whether an object has an own property [k]. *)
Fixpoint has_member (k : string) (ms : list (string * value)) : bool :=
  match ms with
  | [] => false
  | (k', _) :: r => String.eqb k k' || has_member k r
  end.

(** What [ToString] throws on an object it finds no callable [toString] or
    [valueOf] for that returns a primitive. *)
Definition cannot_convert : error :=
  TypeError "Cannot convert object to primitive value".

(** [ToString], as a template literal, [parseInt] and [join] apply it.  An
    array prints as [join(",")], where [undefined] and [null] elements print
    as the empty string.  An object prints through its [toString] method: a
    JSON object inherits [Object.prototype.toString] unless it has an own
    property of that name, which is never a function; the conversion then
    falls back on [valueOf], which returns no primitive, and throws. *)
Fixpoint ToString (v : value) : Result string :=
  match v with
  | VUndefined => Ok "undefined"
  | VNull => Ok "null"
  | VBool true => Ok "true"
  | VBool false => Ok "false"
  | VNum n => Ok (Number_toString n)
  | VString s => Ok s
  | VArray xs =>
      match
        (fix elems (l : list value) : Result (list string) :=
           match l with
           | [] => Ok []
           | x :: r =>
               match
                 match x with
                 | VUndefined | VNull => Ok ""
                 | _ => ToString x
                 end
               with
               | Ok s =>
                   match elems r with
                   | Ok ss => Ok (s :: ss)
                   | Throw e => Throw e
                   end
               | Throw e => Throw e
               end
           end) xs
      with
      | Ok parts => Ok (join_with "," parts)
      | Throw e => Throw e
      end
  | VObject ms =>
      if has_member "toString" ms then Throw cannot_convert
      else Ok "[object Object]"
  end.

Definition element_string (v : value) : Result string :=
  match v with
  | VUndefined | VNull => Ok ""
  | _ => ToString v
  end.

(** The elements of an array printed from left to right; the first one that
    throws ends the conversion. *)
Fixpoint element_strings (xs : list value) : Result (list string) :=
  match xs with
  | [] => Ok []
  | x :: r =>
      match element_string x with
      | Ok s =>
          match element_strings r with
          | Ok ss => Ok (s :: ss)
          | Throw e => Throw e
          end
      | Throw e => Throw e
      end
  end.

(** [Array.prototype.join] *)
Definition Array_join (xs : list value) (sep : string) : Result string :=
  match element_strings xs with
  | Ok parts => Ok (join_with sep parts)
  | Throw e => Throw e
  end.

(** ** Property access *)

Fixpoint lookup_member (k : string) (ms : list (string * value)) : value :=
  match ms with
  | [] => VUndefined
  | (k', v) :: r => if String.eqb k k' then v else lookup_member k r
  end.

(** [v.k] for one of the property names the sources read.  Reading a
    property of [undefined] or [null] throws; an object answers with its own
    property; every other value has none of these names as an own data
    property (inherited members such as [String.prototype.link] are not
    JSON values and are read as [undefined]). *)
Definition getMember (v : value) (k : string) : Result value :=
  match v with
  | VUndefined =>
      Throw (TypeError ("Cannot read properties of undefined (reading '" +:+ k +:+ "')"))
  | VNull =>
      Throw (TypeError ("Cannot read properties of null (reading '" +:+ k +:+ "')"))
  | VObject ms => Ok (lookup_member k ms)
  | _ => Ok VUndefined
  end.

(** [recv.join(sep)]: only arrays have a [join] method. *)
Definition call_join (recv_name : string) (recv : value) (sep : string) : Result string :=
  match recv with
  | VUndefined =>
      Throw (TypeError "Cannot read properties of undefined (reading 'join')")
  | VNull =>
      Throw (TypeError "Cannot read properties of null (reading 'join')")
  | VArray xs => Array_join xs sep
  | _ => Throw (TypeError (recv_name +:+ ".join is not a function"))
  end.

(** [s.includes(sub)] *)
Fixpoint includes (s sub : string) : bool :=
  String.prefix sub s ||
  match s with
  | "" => false
  | String _ r => includes r sub
  end.

(** ** parseInt (one argument)

    Leading white space is skipped, a sign and a hexadecimal prefix are
    read, then the longest run of digits. *)

(** The white space characters of one byte. *)
Definition is_space (c : ascii) : bool :=
  let n := nat_of_ascii c in
  ((n =? 32) || (n =? 9) || (n =? 10) || (n =? 11) || (n =? 12) || (n =? 13))%nat.

(** U+00A0 in UTF-8. *)
Definition is_space2 (c1 c2 : ascii) : bool :=
  ((nat_of_ascii c1 =? 194) && (nat_of_ascii c2 =? 160))%nat.

(** The white space characters of three bytes in UTF-8: U+1680,
    U+2000 to U+200A, U+2028, U+2029, U+202F, U+205F, U+3000 and U+FEFF. *)
Definition is_space3 (c1 c2 c3 : ascii) : bool :=
  let a := nat_of_ascii c1 in
  let b := nat_of_ascii c2 in
  let c := nat_of_ascii c3 in
  (((a =? 225) && (b =? 154) && (c =? 128)) ||
   ((a =? 226) && (b =? 128) &&
    (((128 <=? c) && (c <=? 138)) || (c =? 168) || (c =? 169) || (c =? 175))) ||
   ((a =? 226) && (b =? 129) && (c =? 159)) ||
   ((a =? 227) && (b =? 128) && (c =? 128)) ||
   ((a =? 239) && (b =? 187) && (c =? 191)))%nat.

Fixpoint trim_start (s : string) : string :=
  match s with
  | String c1 r1 =>
      if is_space c1 then trim_start r1
      else
        match r1 with
        | String c2 r2 =>
            if is_space2 c1 c2 then trim_start r2
            else
              match r2 with
              | String c3 r3 => if is_space3 c1 c2 c3 then trim_start r3 else s
              | "" => s
              end
        | "" => s
        end
  | "" => ""
  end.

Definition digit_value (radix : Z) (c : ascii) : option Z :=
  let n := Z.of_nat (nat_of_ascii c) in
  let d :=
    if (48 <=? n) && (n <=? 57) then Some (n - 48)
    else if (97 <=? n) && (n <=? 122) then Some (n - 87)
    else if (65 <=? n) && (n <=? 90) then Some (n - 55)
    else None in
  match d with
  | Some x => if x <? radix then Some x else None
  | None => None
  end.

(** Reads the longest prefix of radix-[radix] digits; [acc] is [None] until
    a digit was read. *)
Fixpoint read_digits (radix : Z) (s : string) (acc : option Z) : option Z :=
  match s with
  | "" => acc
  | String c r =>
      match digit_value radix c with
      | Some d => read_digits radix r (Some (default 0 acc * radix + d))
      | None => acc
      end
  end.

Definition parseInt_string (input : string) : number :=
  let s := trim_start input in
  let '(sign, s) :=
    match s with
    | String "-" r => (-1, r)
    | String "+" r => (1, r)
    | _ => (1, s)
    end in
  let '(radix, s) :=
    match s with
    | String "0" (String "x" r) => (16, r)
    | String "0" (String "X" r) => (16, r)
    | _ => (10, s)
    end in
  match read_digits radix s None with
  | None => NaN
  | Some n => Dec (sign * n) 0
  end.

(** [parseInt(v)]: the argument is first converted with [ToString]. *)
Definition parseInt (v : value) : Result number :=
  match ToString v with
  | Ok s => Ok (parseInt_string s)
  | Throw e => Throw e
  end.

End JS.

(* ===================================================================== *)
(** * JSON.parse                                                          *)
(* ===================================================================== *)

Module JSON.
Import JS.

Inductive token : Type :=
| TLBrace | TRBrace | TLBracket | TRBracket | TColon | TComma
| TString (s : string)
| TNumber (n : number)
| TTrue | TFalse | TNull.

(** A character of a string literal: a byte of the text, or the code unit
    of a [\uXXXX] escape. *)
Inductive sunit : Type :=
| Raw (c : ascii)
| Esc (code : N).

Definition byte (n : N) : ascii := ascii_of_N n.

(** The double quote character. *)
Definition dquote : ascii := ascii_of_nat 34.

(** Writes a JSON text with apostrophes standing for double quotes:
    [text "{'a': 1}"] is the text  { dquote a dquote : 1 }. *)
Fixpoint text (s : string) : string :=
  match s with
  | "" => ""
  | String c r => String (if Ascii.eqb c "'" then dquote else c) (text r)
  end.

(** UTF-8 of one code point (surrogates alone are encoded like any other
    three-byte code point). *)
Definition utf8 (cp : N) : string :=
  (if cp <? 128 then String (byte cp) ""
   else if cp <? 2048 then
     String (byte (192 + cp / 64)) (String (byte (128 + cp mod 64)) "")
   else if cp <? 65536 then
     String (byte (224 + cp / 4096))
       (String (byte (128 + (cp / 64) mod 64)) (String (byte (128 + cp mod 64)) ""))
   else
     String (byte (240 + cp / 262144))
       (String (byte (128 + (cp / 4096) mod 64))
          (String (byte (128 + (cp / 64) mod 64)) (String (byte (128 + cp mod 64)) ""))))%N.

Definition is_high (c : N) : bool := ((55296 <=? c) && (c <=? 56319))%N.
Definition is_low (c : N) : bool := ((56320 <=? c) && (c <=? 57343))%N.

Fixpoint encode_units (us : list sunit) : string :=
  match us with
  | [] => ""
  | Raw c :: r => String c (encode_units r)
  | Esc hi :: r =>
      match r with
      | Esc lo :: r' =>
          if is_high hi && is_low lo
          then utf8 (65536 + (hi - 55296) * 1024 + (lo - 56320))%N +:+ encode_units r'
          else utf8 hi +:+ encode_units r
      | _ => utf8 hi +:+ encode_units r
      end
  end.

(** Where the number automaton stands in a literal: an optional minus, an
    integer part (a single 0, or a non-zero digit and more digits), an
    optional fraction (a dot and at least one digit) and an optional
    exponent (e or E, an optional sign, at least one digit). *)
Inductive num_phase : Type :=
| PMinus | PZero | PInt | PDot | PFrac | PE | PESign | PExp.

Record num_state : Type := NumState {
  neg : bool;        (* a leading minus was read *)
  mant : Z;          (* the digits of the integer and fraction parts *)
  frac : Z;          (* how many of them are fraction digits *)
  eneg : bool;       (* the exponent is negative *)
  expo : Z;          (* the exponent digits *)
  phase : num_phase
}.

Definition num_accepting (p : num_phase) : bool :=
  match p with
  | PZero | PInt | PFrac | PExp => true
  | _ => false
  end.

Definition num_value (st : num_state) : number :=
  Dec ((if neg st then -1 else 1) * mant st)
      ((if eneg st then -1 else 1) * expo st - frac st).

Definition dec_digit (c : ascii) : option Z :=
  let n := Z.of_nat (nat_of_ascii c) in
  if (48 <=? n) && (n <=? 57) then Some (n - 48) else None.

Definition is_e (c : ascii) : bool := Ascii.eqb c "e" || Ascii.eqb c "E".

(** One character inside a number; [None] when the character cannot
    continue the literal. *)
Definition num_step (st : num_state) (c : ascii) : option num_state :=
  let '(NumState n m f en ex p) := st in
  match p, dec_digit c with
  | PMinus, Some d => Some (NumState n d f en ex (if d =? 0 then PZero else PInt))
  | PInt, Some d => Some (NumState n (m * 10 + d) f en ex PInt)
  | (PDot | PFrac), Some d => Some (NumState n (m * 10 + d) (f + 1) en ex PFrac)
  | (PE | PESign | PExp), Some d => Some (NumState n m f en (ex * 10 + d) PExp)
  | (PZero | PInt), None =>
      if Ascii.eqb c "." then Some (NumState n m f en ex PDot)
      else if is_e c then Some (NumState n m f en ex PE)
      else None
  | PFrac, None => if is_e c then Some (NumState n m f en ex PE) else None
  | PE, None =>
      if Ascii.eqb c "+" then Some (NumState n m f false ex PESign)
      else if Ascii.eqb c "-" then Some (NumState n m f true ex PESign)
      else None
  | _, _ => None
  end.

Inductive lex_state : Type :=
| LStart                                    (* between tokens *)
| LLit (rest : string) (t : token)          (* inside true, false or null *)
| LStr (acc : list sunit)                   (* inside a string literal *)
| LEsc (acc : list sunit)                   (* after a backslash *)
| LUni (acc : list sunit) (n : nat) (code : N)  (* n hex digits of \u read *)
| LNum (st : num_state).

Definition is_ws (c : ascii) : bool :=
  let n := nat_of_ascii c in
  ((n =? 32) || (n =? 9) || (n =? 10) || (n =? 13))%nat.

(** A character read between tokens: the new state and the token it
    completes, if any. *)
Definition start_char (c : ascii) : option (lex_state * option token) :=
  if is_ws c then Some (LStart, None)
  else if Ascii.eqb c "{" then Some (LStart, Some TLBrace)
  else if Ascii.eqb c "}" then Some (LStart, Some TRBrace)
  else if Ascii.eqb c "[" then Some (LStart, Some TLBracket)
  else if Ascii.eqb c "]" then Some (LStart, Some TRBracket)
  else if Ascii.eqb c ":" then Some (LStart, Some TColon)
  else if Ascii.eqb c "," then Some (LStart, Some TComma)
  else if Ascii.eqb c dquote then Some (LStr [], None)
  else if Ascii.eqb c "t" then Some (LLit "rue" TTrue, None)
  else if Ascii.eqb c "f" then Some (LLit "alse" TFalse, None)
  else if Ascii.eqb c "n" then Some (LLit "ull" TNull, None)
  else if Ascii.eqb c "-" then Some (LNum (NumState true 0 0 false 0 PMinus), None)
  else match dec_digit c with
       | Some d =>
           Some (LNum (NumState false d 0 false 0 (if d =? 0 then PZero else PInt)), None)
       | None => None
       end.

Definition escape_char (c : ascii) : option ascii :=
  if Ascii.eqb c dquote then Some c
  else if Ascii.eqb c "\" then Some c
  else if Ascii.eqb c "/" then Some c
  else if Ascii.eqb c "b" then Some (ascii_of_nat 8)
  else if Ascii.eqb c "f" then Some (ascii_of_nat 12)
  else if Ascii.eqb c "n" then Some (ascii_of_nat 10)
  else if Ascii.eqb c "r" then Some (ascii_of_nat 13)
  else if Ascii.eqb c "t" then Some (ascii_of_nat 9)
  else None.

Definition push (t : option token) (acc : list token) : list token :=
  match t with
  | Some t => acc ++ [t]
  | None => acc
  end.

(** The lexer: one pass over the text. *)
Fixpoint lex (st : lex_state) (acc : list token) (s : string) : option (list token) :=
  match s with
  | "" =>
      match st with
      | LStart => Some acc
      | LNum n => if num_accepting (phase n) then Some (acc ++ [TNumber (num_value n)]) else None
      | _ => None
      end
  | String c r =>
      match st with
      | LStart =>
          match start_char c with
          | Some (st', t) => lex st' (push t acc) r
          | None => None
          end
      | LLit "" _ => None
      | LLit (String x "") t => if Ascii.eqb c x then lex LStart (acc ++ [t]) r else None
      | LLit (String x rest) t => if Ascii.eqb c x then lex (LLit rest t) acc r else None
      | LStr us =>
          if Ascii.eqb c dquote then lex LStart (acc ++ [TString (encode_units us)]) r
          else if Ascii.eqb c "\" then lex (LEsc us) acc r
          else if (nat_of_ascii c <? 32)%nat then None
          else lex (LStr (us ++ [Raw c])) acc r
      | LEsc us =>
          if Ascii.eqb c "u" then lex (LUni us 0 0%N) acc r
          else match escape_char c with
               | Some x => lex (LStr (us ++ [Raw x])) acc r
               | None => None
               end
      | LUni us n code =>
          match digit_value 16 c with
          | Some d =>
              let code' := (code * 16 + Z.to_N d)%N in
              if (n =? 3)%nat then lex (LStr (us ++ [Esc code'])) acc r
              else lex (LUni us (S n) code') acc r
          | None => None
          end
      | LNum n =>
          match num_step n c with
          | Some n' => lex (LNum n') acc r
          | None =>
              if num_accepting (phase n) then
                match start_char c with
                | Some (st', t) => lex st' (push t (acc ++ [TNumber (num_value n)])) r
                | None => None
                end
              else None
          end
      end
  end.

(** Sets an own property: an existing key keeps its place and takes the new
    value, a new key goes last. *)
Fixpoint set_member (k : string) (v : value) (ms : list (string * value))
  : list (string * value) :=
  match ms with
  | [] => [(k, v)]
  | (k', v') :: r =>
      if String.eqb k k' then (k, v) :: r else (k', v') :: set_member k v r
  end.

(** The containers that are open while the token stream is read. *)
Inductive frame : Type :=
| FArr (acc : list value)                         (* inside [ ... *)
| FObj (acc : list (string * value))              (* inside { ..., before a key or after a member *)
| FObjV (acc : list (string * value)) (k : string). (* after  key :  *)

Inductive mode : Type :=
| MVal        (* a value must follow *)
| MArrStart   (* just after [ : a value or ] *)
| MObjStart   (* just after { : a key or } *)
| MKey        (* after a comma in an object: a key *)
| MColon      (* after a key: a colon *)
| MSep        (* after an element or member: a comma or the closing bracket *)
| MDone (v : value).

(** A finished value goes to the innermost open container, or is the
    result. *)
Definition deliver (v : value) (stack : list frame) : option (mode * list frame) :=
  match stack with
  | [] => Some (MDone v, [])
  | FArr acc :: r => Some (MSep, FArr (acc ++ [v]) :: r)
  | FObjV acc k :: r => Some (MSep, FObj (set_member k v acc) :: r)
  | FObj _ :: _ => None
  end.

Definition begin_value (t : token) (stack : list frame) : option (mode * list frame) :=
  match t with
  | TLBrace => Some (MObjStart, FObj [] :: stack)
  | TLBracket => Some (MArrStart, FArr [] :: stack)
  | TString s => deliver (VString s) stack
  | TNumber n => deliver (VNum n) stack
  | TTrue => deliver (VBool true) stack
  | TFalse => deliver (VBool false) stack
  | TNull => deliver VNull stack
  | _ => None
  end.

Definition parse_step (m : mode) (stack : list frame) (t : token)
  : option (mode * list frame) :=
  match m, t, stack with
  | MVal, _, _ => begin_value t stack
  | MArrStart, TRBracket, FArr acc :: r => deliver (VArray acc) r
  | MArrStart, _, _ => begin_value t stack
  | MObjStart, TRBrace, FObj acc :: r => deliver (VObject acc) r
  | (MObjStart | MKey), TString k, FObj acc :: r => Some (MColon, FObjV acc k :: r)
  | MColon, TColon, _ => Some (MVal, stack)
  | MSep, TComma, FArr _ :: _ => Some (MVal, stack)
  | MSep, TRBracket, FArr acc :: r => deliver (VArray acc) r
  | MSep, TComma, FObj _ :: _ => Some (MKey, stack)
  | MSep, TRBrace, FObj acc :: r => deliver (VObject acc) r
  | _, _, _ => None
  end.

Fixpoint parse_tokens (m : mode) (stack : list frame) (ts : list token) : option value :=
  match ts with
  | [] => match m with MDone v => Some v | _ => None end
  | t :: r =>
      match parse_step m stack t with
      | Some (m', stack') => parse_tokens m' stack' r
      | None => None
      end
  end.

(** [JSON.parse(text)]: the value, or a thrown [SyntaxError].  The message
    an engine puts into the error quotes the offending token and is not
    reproduced; one fixed text stands for it. *)
Definition parse (text : string) : Result value :=
  match lex LStart [] text with
  | Some ts =>
      match parse_tokens MVal [] ts with
      | Some v => Ok v
      | None => Throw (SyntaxError "Unexpected token in JSON")
      end
  | None => Throw (SyntaxError "Unexpected token in JSON")
  end.

(** What [JSON.parse(JSON.stringify(v))] gives back for a value nested in
    an object or an array: [NaN] and the infinities become [null], an
    [undefined] array element becomes [null], an [undefined] property is
    dropped. *)
Fixpoint roundtrip (v : value) : value :=
  match v with
  | VNum NaN => VNull
  | VNum (Dec m e) => if rounds_to_infinity m e then VNull else v
  | VArray xs =>
      VArray ((fix elems (l : list value) : list value :=
                 match l with
                 | [] => []
                 | VUndefined :: r => VNull :: elems r
                 | x :: r => roundtrip x :: elems r
                 end) xs)
  | VObject ms =>
      VObject ((fix members (l : list (string * value)) : list (string * value) :=
                  match l with
                  | [] => []
                  | (_, VUndefined) :: r => members r
                  | (k, x) :: r => (k, roundtrip x) :: members r
                  end) ms)
  | _ => v
  end.

End JSON.

(* ===================================================================== *)
(** * Computations that call remote services                              *)
(* ===================================================================== *)

Module Eff.
Import JS.

(** A computation over a state [S] that returns or throws; an [await]ed
    promise that rejects is a [Throw]. *)
Definition Comp (S A : Type) : Type := S -> Result A * S.

Definition ret {S A} (a : A) : Comp S A := fun s => (Ok a, s).

Definition bind {S A B} (c : Comp S A) (k : A -> Comp S B) : Comp S B :=
  fun s =>
    match c s with
    | (Ok a, s') => k a s'
    | (Throw e, s') => (Throw e, s')
    end.

(** An expression that can throw, evaluated inside a computation. *)
Definition lift {S A} (r : Result A) : Comp S A := fun s => (r, s).

Declare Scope comp_scope.
Delimit Scope comp_scope with comp.
Notation "'let*' x ':=' c 'in' k" := (bind c (fun x => k))
  (at level 10, x name, c at level 100, k at level 200) : comp_scope.
Notation "c ';;' k" := (bind c (fun _ => k))
  (at level 100, k at level 200, right associativity) : comp_scope.

(** The request of [openai.chat.completions.create]: the model, the
    messages as (role, content) pairs, and whether
    [response_format: { type: 'json_object' }] is set.  The sampling
    parameters [temperature] and [max_tokens] are left out. *)
Record ChatRequest : Type := {
  model : string;
  messages : list (string * string);
  json_object : bool
}.

(** A chat completion as the sources read it: [choices[i].message.content],
    each a [string | null]. *)
Definition ChatCompletion : Type := list (option string).

Inductive method : Type := POST | PUT.

(** The remote calls a worker makes, in the order it makes them. *)
Inductive call : Type :=
| ChatCreate (req : ChatRequest)
| Http (m : method) (url : string) (body : value).

(** A JavaScript [Date]: its time value in milliseconds, or [None] for an
    Invalid Date. *)
Definition Date : Type := option Z.

(** Everything outside the process.  The remote services answer a call
    given the calls made before it: [openai] resolves with a completion or
    rejects, [axios] resolves with [response.data] or rejects.  [now] is
    the clock read by [new Date()], [Date_of] is the time value
    [new Date(v)] arrives at once [v] is a primitive, and [iso]
    formats a valid time value as [toISOString] does. *)
Record World : Type := {
  openai : list call -> ChatRequest -> Result ChatCompletion;
  axios : list call -> method -> string -> value -> Result value;
  now : list call -> Z;
  Date_of : value -> Date;
  iso : Z -> string
}.

Section Remote.
Variable w : World.

Definition chat_completions_create (req : ChatRequest)
  : Comp (list call) ChatCompletion :=
  fun tr => (openai w tr req, tr ++ [ChatCreate req]).

Definition client_post (url : string) (data : value) : Comp (list call) value :=
  fun tr => (axios w tr POST url data, tr ++ [Http POST url data]).

Definition client_put (url : string) (data : value) : Comp (list call) value :=
  fun tr => (axios w tr PUT url data, tr ++ [Http PUT url data]).

(** [new Date()] *)
Definition Date_new : Comp (list call) Date := fun tr => (Ok (Some (now w tr)), tr).

(** [new Date(v)]: the argument is first converted to a primitive.  For an
    array that is its [toString], and for any other object its [valueOf]
    returns no primitive and its [toString] comes next, so the conversion
    throws exactly where [ToString] throws. *)
Definition Date_from (v : value) : Result Date :=
  match ToString v with
  | Ok _ => Ok (Date_of w v)
  | Throw e => Throw e
  end.

(** [date.toISOString()] throws a [RangeError] on an Invalid Date. *)
Definition toISOString (d : Date) : Result string :=
  match d with
  | Some t => Ok (iso w t)
  | None => Throw (RangeError "Invalid time value")
  end.
End Remote.

(** [console.log(line)]: nothing observable here once [line] has its
    value; the template literal a caller passes is evaluated by the caller,
    and can throw there. *)
Definition console_log {S} (line : string) : Comp S unit := ret tt.

End Eff.

(* ===================================================================== *)
(** * services/llm.service.ts                                             *)
(* ===================================================================== *)

Module LLMService.
Import JS Eff.
Local Open Scope comp_scope.

Definition nl : string := String (ascii_of_nat 10) "".
Definition dq : string := String JSON.dquote "".

(** [response.choices[0].message.content] *)
Definition first_content (response : ChatCompletion) : Result (option string) :=
  match response with
  | c :: _ => Ok c
  | [] => Throw (TypeError "Cannot read properties of undefined (reading 'message')")
  end.

(** The prompt and request of [generateBlogPost], from the three
    substitutions of its template: [topic] and [wordCount] as the template
    prints them, [joined] for [keywords.join(', ')]. *)
Definition blogPrompt (topic wordCount joined : string) : string :=
  "Write a " +:+ wordCount +:+ "-word blog post about " +:+
  dq +:+ topic +:+ dq +:+ "." +:+ nl +:+
  "    " +:+ nl +:+
  "Include these keywords naturally: " +:+ joined +:+ "." +:+ nl +:+
  nl +:+
  "Format the content in HTML with:" +:+ nl +:+
  "- An engaging introduction" +:+ nl +:+
  "- Clear headings (h2, h3)" +:+ nl +:+
  "- Well-structured paragraphs" +:+ nl +:+
  "- Bullet points or numbered lists where appropriate" +:+ nl +:+
  "- A strong conclusion" +:+ nl +:+
  nl +:+
  "Focus on providing valuable, actionable information.".

Definition blogRequest (topic wordCount joined : string) : ChatRequest :=
  {| model := "gpt-4-turbo-preview";
     messages :=
       [("system",
         "You are a professional content writer specializing in SEO-optimized blog posts.");
        ("user", blogPrompt topic wordCount joined)];
     json_object := false |}.

(** The high surrogate of the character of four bytes [c1 c2 c3 c4]. *)
Definition high_surrogate (c1 c2 c3 c4 : ascii) : N :=
  let cp := ((N_of_ascii c1 mod 8) * 262144 + (N_of_ascii c2 mod 64) * 4096 +
             (N_of_ascii c3 mod 64) * 64 + N_of_ascii c4 mod 64)%N in
  (55296 + (cp - 65536) / 1024)%N.

(** [s.substring(0, n)]: the first [n] UTF-16 code units of [s].  A
    character of one, two or three bytes in UTF-8 is one code unit; a
    character of four bytes is a surrogate pair, of which the high
    surrogate alone is kept when one unit is left. *)
Fixpoint substring_units (n : nat) (s : string) : string :=
  match n with
  | O => ""
  | S k =>
      match s with
      | "" => ""
      | String c1 r1 =>
          if (nat_of_ascii c1 <? 192)%nat then String c1 (substring_units k r1)
          else
            match r1 with
            | "" => String c1 ""
            | String c2 r2 =>
                if (nat_of_ascii c1 <? 224)%nat
                then String c1 (String c2 (substring_units k r2))
                else
                  match r2 with
                  | "" => String c1 (String c2 "")
                  | String c3 r3 =>
                      if (nat_of_ascii c1 <? 240)%nat
                      then String c1 (String c2 (String c3 (substring_units k r3)))
                      else
                        match r3 with
                        | "" => String c1 (String c2 (String c3 ""))
                        | String c4 r4 =>
                            match k with
                            | O => JSON.utf8 (high_surrogate c1 c2 c3 c4)
                            | S k' =>
                                String c1 (String c2 (String c3 (String c4
                                  (substring_units k' r4))))
                            end
                        end
                  end
            end
      end
  end.

(** The prompt and request of [generateSEOMetadata]. *)
Definition seoPrompt (content : string) : string :=
  "Analyze this blog post content and generate SEO metadata:" +:+ nl +:+
  nl +:+
  substring_units 1000 content +:+ "..." +:+ nl +:+
  nl +:+
  "Generate:" +:+ nl +:+
  "1. An SEO-optimized meta title (55-60 characters)" +:+ nl +:+
  "2. A compelling meta description (150-160 characters)" +:+ nl +:+
  "3. 5-7 relevant tags" +:+ nl +:+
  nl +:+
  JSON.text
    "Return as JSON: { 'title': '...', 'description': '...', 'tags': ['tag1', 'tag2', ...] }".

Definition seoRequest (content : string) : ChatRequest :=
  {| model := "gpt-4-turbo-preview";
     messages := [("user", seoPrompt content)];
     json_object := true |}.

(** The prompt and request of [generateFAQSchema]. *)
Definition faqPrompt (content : string) : string :=
  "Based on this blog post content, generate 3-5 FAQ questions and answers for structured data:"
  +:+ nl +:+
  nl +:+
  substring_units 1500 content +:+ "..." +:+ nl +:+
  nl +:+
  JSON.text "Return as JSON array: [{ 'question': '...', 'answer': '...' }, ...]".

Definition faqRequest (content : string) : ChatRequest :=
  {| model := "gpt-4-turbo-preview";
     messages := [("user", faqPrompt content)];
     json_object := true |}.

(** The declared result type of [generateSEOMetadata],
    [{ title: string; description: string; tags: string[] }], as a test on
    values. *)
Definition is_string (v : value) : bool :=
  match v with VString _ => true | _ => false end.

Definition is_SEOMetadata (v : value) : bool :=
  match v with
  | VObject ms =>
      is_string (lookup_member "title" ms) &&
      is_string (lookup_member "description" ms) &&
      match lookup_member "tags" ms with
      | VArray ts => forallb is_string ts
      | _ => false
      end
  | _ => false
  end.

Section Service.
Variable w : World.

(** [generateBlogPost(params)] with [params = {topic, keywords, wordCount}].
    The template prints [wordCount], then [topic], then the joined
    keywords. *)
Definition generateBlogPost (topic keywords wordCount : value)
  : Comp (list call) string :=
  let* count := lift (ToString wordCount) in
  let* subject := lift (ToString topic) in
  let* joined := lift (call_join "keywords" keywords ", ") in
  let* response := chat_completions_create w (blogRequest subject count joined) in
  let* content := lift (first_content response) in
  ret (string_or content "").

(** [generateSEOMetadata(content)]: whatever [JSON.parse] makes of the
    reply, or of the text of the empty object when the reply is empty or
    null. *)
Definition generateSEOMetadata (content : string) : Comp (list call) value :=
  let* response := chat_completions_create w (seoRequest content) in
  let* content := lift (first_content response) in
  lift (JSON.parse (string_or content "{}")).

(** [generateFAQSchema(content)]: the [faqs] member of the parsed reply,
    or the empty array when that member is falsy. *)
Definition generateFAQSchema (content : string) : Comp (list call) value :=
  let* response := chat_completions_create w (faqRequest content) in
  let* content := lift (first_content response) in
  let* result := lift (JSON.parse (string_or content (JSON.text "{'faqs': []}"))) in
  let* faqs := lift (getMember result "faqs") in
  ret (or_else faqs (VArray [])).
End Service.

End LLMService.

(* ===================================================================== *)
(** * services/wordpress.service.ts                                       *)
(* ===================================================================== *)

Module WordPressService.
Import JS Eff.
Local Open Scope comp_scope.

Section Service.
Variable w : World.

(** [createPost(data)]: one POST to [/posts]; the result is
    [response.data]. *)
Definition createPost (data : value) : Comp (list call) value :=
  client_post w "/posts" data.

Definition updatePost (postId : value) (data : value) : Comp (list call) value :=
  let* idText := lift (ToString postId) in
  client_put w ("/posts/" +:+ idText) data.

(** [schedulePost(postId, date)]: one PUT to [/posts/<postId>] with
    [{status: 'future', date: date.toISOString()}]. *)
Definition schedulePost (postId : value) (date : Date) : Comp (list call) value :=
  let* idText := lift (ToString postId) in
  let* d := lift (toISOString w date) in
  client_put w ("/posts/" +:+ idText)
    (VObject [("status", VString "future"); ("date", VString d)]).
End Service.

End WordPressService.

(* ===================================================================== *)
(** * The job library as the sources use it                               *)
(* ===================================================================== *)

(** The part of bullmq's [Queue], [Job] and [Worker] that [queue.ts] and
    the routes rely on.  Job data and return values are kept as JSON, so
    what is read back is the [JSON.roundtrip] of what was handed over.  The
    queues are created and the jobs are added without an [attempts] option:
    a job whose processor throws is failed, with the error's message as its
    [failedReason], and is not run again.  The store is taken to be
    reachable. *)
Module BullMQ.
Import JS.

Inductive JobState : Type := waiting | active | completed | failed.

Definition state_name (s : JobState) : string :=
  match s with
  | waiting => "waiting"
  | active => "active"
  | completed => "completed"
  | failed => "failed"
  end.

Record Job : Type := mkJob {
  id : string;
  name : string;
  data : value;
  state : JobState;
  progress : value;
  returnvalue : value;
  failedReason : value;
  attemptsMade : N
}.

Record Queue : Type := mkQueue {
  queueName : string;
  counter : N;                    (* the last id handed out *)
  jobs : gmap string Job
}.

Definition Queue_new (qn : string) : Queue := mkQueue qn 0 ∅.

(** [queue.add(name, data)]: the new job, waiting, under the next id. *)
Definition add (q : Queue) (nm : string) (d : value) : Job * Queue :=
  let jid := digits (counter q + 1) in
  let j := mkJob jid nm (JSON.roundtrip d) waiting (int 0) VNull VUndefined 0 in
  (j, mkQueue (queueName q) (counter q + 1) (<[jid := j]> (jobs q))).

(** [queue.getJob(jobId)]: the job, or [undefined]. *)
Definition getJob (q : Queue) (jobId : string) : option Job := jobs q !! jobId.

Record WorkerOptions : Type := {
  concurrency : N;
  limiter : option (N * N)        (* max, duration in milliseconds *)
}.

(** [new Worker(name, processor, options)], over the state [S] its
    processor works on. *)
Record Worker (S : Type) : Type := mkWorker {
  workerName : string;
  processFn : Job -> Eff.Comp S value;
  opts : WorkerOptions
}.
Arguments mkWorker {S} _ _ _.
Arguments workerName {S} _.
Arguments processFn {S} _.
Arguments opts {S} _.

Section Worker.
Context {S : Type}.
Variable processor : Job -> Eff.Comp S value.

(** One run of the processor on a claimed job, and the job as the worker
    leaves it. *)
Definition processJob (j : Job) (s : S) : Job * S :=
  let j1 := mkJob (id j) (name j) (data j) active (progress j)
                  (returnvalue j) (failedReason j) (attemptsMade j + 1) in
  match processor j1 s with
  | (Ok v, s') =>
      (mkJob (id j1) (name j1) (data j1) completed (progress j1)
             (JSON.roundtrip v) (failedReason j1) (attemptsMade j1), s')
  | (Throw e, s') =>
      (mkJob (id j1) (name j1) (data j1) failed (progress j1)
             (returnvalue j1) (VString (message e)) (attemptsMade j1), s')
  end.
End Worker.

End BullMQ.

(* ===================================================================== *)
(** * jobs/queue.ts                                                       *)
(* ===================================================================== *)

Module Workers.
Import JS Eff.
Local Open Scope comp_scope.

Definition contentQueue : BullMQ.Queue := BullMQ.Queue_new "content-generation".
Definition publishQueue : BullMQ.Queue := BullMQ.Queue_new "publishing".

Section Processors.
Variable w : World.

(** The processor of [startContentWorker]. *)
Definition contentProcessor (job : BullMQ.Job) : Comp (list call) value :=
  let* topic := lift (getMember (BullMQ.data job) "topic") in
  let* keywords := lift (getMember (BullMQ.data job) "keywords") in
  let* wordCount := lift (getMember (BullMQ.data job) "wordCount") in
  let* contentId := lift (getMember (BullMQ.data job) "contentId") in
  let* subject := lift (ToString topic) in
  console_log ("Generating content for: " +:+ subject) ;;
  let* content := LLMService.generateBlogPost w topic keywords wordCount in
  let* seo := LLMService.generateSEOMetadata w content in
  let* faqs := LLMService.generateFAQSchema w content in
  let* subject := lift (ToString topic) in
  console_log ("Content generated successfully for: " +:+ subject) ;;
  ret (VObject [("contentId", contentId);
                ("content", VString content);
                ("seo", seo);
                ("faqs", faqs);
                ("topic", topic)]).

(** The processor of [startPublishWorker]. *)
Definition publishProcessor (job : BullMQ.Job) : Comp (list call) value :=
  let* content := lift (getMember (BullMQ.data job) "content") in
  let* seo := lift (getMember (BullMQ.data job) "seo") in
  let* status := lift (getMember (BullMQ.data job) "status") in
  let* scheduleDate := lift (getMember (BullMQ.data job) "scheduleDate") in
  let* title := lift (getMember seo "title") in
  let* titleText := lift (ToString title) in
  console_log ("Publishing content: " +:+ titleText) ;;
  let* description := lift (getMember seo "description") in
  let* post :=
    WordPressService.createPost w
      (VObject [("title", title);
                ("content", content);
                ("excerpt", description);
                ("status", or_else status (VString "draft"))]) in
  (if truthy scheduleDate then
     let* postId := lift (getMember post "id") in
     let* date := lift (Date_from w scheduleDate) in
     let* _ := WordPressService.schedulePost w postId date in
     ret tt
   else ret tt) ;;
  let* postId := lift (getMember post "id") in
  let* idText := lift (ToString postId) in
  console_log ("Published to WordPress: " +:+ idText) ;;
  let* link := lift (getMember post "link") in
  let* date := Date_new w in
  let* publishedAt := lift (toISOString w date) in
  ret (VObject [("wordpressId", postId);
                ("wordpressUrl", link);
                ("publishedAt", VString publishedAt)]).
End Processors.

(** The options [startContentWorker] passes to its [Worker]. *)
Definition contentWorkerOptions : BullMQ.WorkerOptions :=
  {| BullMQ.concurrency := 2; BullMQ.limiter := Some (10, 60000)%N |}.

(** The options [startPublishWorker] passes to its [Worker]. *)
Definition publishWorkerOptions : BullMQ.WorkerOptions :=
  {| BullMQ.concurrency := 1; BullMQ.limiter := None |}.

Definition startContentWorker (w : World) : BullMQ.Worker (list call) :=
  BullMQ.mkWorker "content-generation" (contentProcessor w) contentWorkerOptions.

Definition startPublishWorker (w : World) : BullMQ.Worker (list call) :=
  BullMQ.mkWorker "publishing" (publishProcessor w) publishWorkerOptions.

Definition startWorkers (w : World)
  : BullMQ.Worker (list call) * BullMQ.Worker (list call) :=
  (startContentWorker w, startPublishWorker w).

(** A content-generation job taken through the content worker, from the
    first remote call on. *)
Definition runContentJob (w : World) (job : BullMQ.Job) : BullMQ.Job * list call :=
  BullMQ.processJob (BullMQ.processFn (fst (startWorkers w))) job [].

(** A publishing job taken through the publishing worker. *)
Definition runPublishJob (w : World) (job : BullMQ.Job) : BullMQ.Job * list call :=
  BullMQ.processJob (BullMQ.processFn (snd (startWorkers w))) job [].

End Workers.

(* ===================================================================== *)
(** * routes/publish.ts and routes/content.ts                             *)
(* ===================================================================== *)

Module Routes.
Import JS Eff.
Local Open Scope comp_scope.

(** What a handler sends: the status code (200 unless [res.status] was
    called) and the value given to [res.json]. *)
Record Response : Type := { status : Z; body : value }.

Definition json (b : value) : Response := {| status := 200; body := b |}.
Definition status_json (code : Z) (b : value) : Response := {| status := code; body := b |}.

(** [await queue.add(name, data)] on the queue the handler closes over. *)
Definition queue_add (nm : string) (d : value) : Comp BullMQ.Queue BullMQ.Job :=
  fun q => let '(j, q') := BullMQ.add q nm d in (Ok j, q').

(** [await queue.getJob(jobId)] *)
Definition queue_getJob (jobId : string) : Comp BullMQ.Queue (option BullMQ.Job) :=
  fun q => (Ok (BullMQ.getJob q jobId), q).

(** A handler's [try { ... } catch (error) { res.status(500).json(...) }]. *)
Definition handler (c : Comp BullMQ.Queue Response) (failure : string)
  (q : BullMQ.Queue) : Response * BullMQ.Queue :=
  match c q with
  | (Ok r, q') => (r, q')
  | (Throw _, q') => (status_json 500 (VObject [("error", VString failure)]), q')
  end.

Module Publish.

(** [router.post('/')] *)
Definition post (req_body : value) : BullMQ.Queue -> Response * BullMQ.Queue :=
  handler
    (let* content := lift (getMember req_body "content") in
     let* seo := lift (getMember req_body "seo") in
     let* status := lift (getMember req_body "status") in
     let* scheduleDate := lift (getMember req_body "scheduleDate") in
     if negb (truthy content) || negb (truthy seo) then
       ret (status_json 400
              (VObject [("error", VString "Missing required fields: content, seo")]))
     else
       let* job :=
         queue_add "publish"
           (VObject [("content", content);
                     ("seo", seo);
                     ("status", or_else status (VString "draft"));
                     ("scheduleDate", scheduleDate)]) in
       ret (json (VObject [("jobId", VString (BullMQ.id job));
                           ("status", VString "publishing");
                           ("message", VString "Publishing started")])))
    "Failed to publish content".

(** [router.get('/job/:jobId')] *)
Definition getJobStatus (jobId : string) : BullMQ.Queue -> Response * BullMQ.Queue :=
  handler
    (let* job := queue_getJob jobId in
     match job with
     | None => ret (status_json 404 (VObject [("error", VString "Job not found")]))
     | Some job =>
         let state := BullMQ.state_name (BullMQ.state job) in
         let result := BullMQ.returnvalue job in
         ret (json (VObject [("jobId", VString (BullMQ.id job));
                             ("state", VString state);
                             ("result", result);
                             ("failedReason", BullMQ.failedReason job)]))
     end)
    "Failed to get job status".

End Publish.

Module Content.

(** [router.post('/generate')]; [uuid] is what [uuidv4()] returns. *)
Definition generate (uuid : string) (req_body : value)
  : BullMQ.Queue -> Response * BullMQ.Queue :=
  handler
    (let* topic := lift (getMember req_body "topic") in
     let* keywords := lift (getMember req_body "keywords") in
     let* wordCount := lift (getMember req_body "wordCount") in
     if negb (truthy topic) || negb (truthy keywords) || negb (truthy wordCount) then
       ret (status_json 400
              (VObject [("error",
                         VString "Missing required fields: topic, keywords, wordCount")]))
     else
       let contentId := VString uuid in
       let* count := lift (parseInt wordCount) in
       let* job :=
         queue_add "generate"
           (VObject [("contentId", contentId);
                     ("topic", topic);
                     ("keywords", keywords);
                     ("wordCount", VNum count)]) in
       ret (json (VObject [("jobId", VString (BullMQ.id job));
                           ("contentId", contentId);
                           ("status", VString "processing");
                           ("message", VString "Content generation started")])))
    "Failed to start content generation".

(** [router.get('/job/:jobId')] *)
Definition getJobStatus (jobId : string) : BullMQ.Queue -> Response * BullMQ.Queue :=
  handler
    (let* job := queue_getJob jobId in
     match job with
     | None => ret (status_json 404 (VObject [("error", VString "Job not found")]))
     | Some job =>
         let state := BullMQ.state_name (BullMQ.state job) in
         let progress := BullMQ.progress job in
         let result := BullMQ.returnvalue job in
         ret (json (VObject [("jobId", VString (BullMQ.id job));
                             ("state", VString state);
                             ("progress", progress);
                             ("result", result);
                             ("failedReason", BullMQ.failedReason job)]))
     end)
    "Failed to get job status".

End Content.

End Routes.

(* ===================================================================== *)
(** * The worker pool behind [new Worker(name, processor, options)]       *)
(* ===================================================================== *)

Module Pool.
Import BullMQ.
Local Open Scope N_scope.

(** Modelled from the spec: the retry settings of a pool ([maxAttempts],
    the backoff's [baseDelay] and its cap [maxDelay]), which [queue.ts]
    leaves to the job library; [options] is the object [queue.ts] passes to
    its [Worker]. *)
Record Config : Type := {
  options : WorkerOptions;
  maxAttempts : N;
  baseDelay : N;
  maxDelay : N
}.

(** A job as the pool sees it; [notBefore] is the time from which a retried
    job is eligible again. *)
Record PJob : Type := mkPJob {
  jid : N;
  jstate : JobState;
  attempts : N;
  notBefore : N
}.

(** Modelled from the spec: the state of one pool (the scheduling loop of
    the job library is not part of the sources): the clock in milliseconds,
    the jobs in enqueue order, and the times at which task executions
    started. *)
Record State : Type := mkState {
  clock : N;
  nextId : N;
  queue : list PJob;
  starts : list N
}.

Definition init : State := mkState 0 0 [] [].

Inductive event : Type :=
| Enqueue               (* a producer submits a job *)
| Tick (dt : N)         (* time passes *)
| Claim                 (* the dequeue loop looks for work *)
| Succeed (j : N)       (* the task function of job j returns *)
| Fail (j : N).         (* the task function of job j throws *)

Fixpoint count {A : Type} (p : A -> bool) (l : list A) : nat :=
  match l with
  | [] => O
  | x :: r => if p x then S (count p r) else count p r
  end.

Definition is_active (j : PJob) : bool :=
  match jstate j with active => true | _ => false end.

Definition is_waiting (j : PJob) : bool :=
  match jstate j with waiting => true | _ => false end.

Definition active_count (s : State) : nat := count is_active (queue s).

(** The task starts inside the window of length [dur] that ends now. *)
Definition recent_starts (dur : N) (s : State) : nat :=
  count (fun t => clock s <? t + dur) (starts s).

(** The task starts inside the window of length [dur] that begins at [t]. *)
Definition starts_in (t dur : N) (s : State) : nat :=
  count (fun x => (t <=? x) && (x <? t + dur)) (starts s).

(** Modelled from the spec: the rate limit is a sliding count of task
    starts; there is budget left while fewer than [max] starts lie in the
    window that ends now.  A pool without limiter always has budget. *)
Definition budget_left (cfg : Config) (s : State) : bool :=
  match limiter (options cfg) with
  | None => true
  | Some (max, dur) => N.of_nat (recent_starts dur s) <? max
  end.

Definition slot_free (cfg : Config) (s : State) : bool :=
  N.of_nat (active_count s) <? concurrency (options cfg).

Definition eligible (now : N) (j : PJob) : bool :=
  is_waiting j && (notBefore j <=? now).

(** Modelled from the spec: admission is first in, first out by enqueue
    time.  Claims the oldest eligible waiting job: it becomes active and
    its attempts are incremented. *)
Fixpoint claim_first (now : N) (q : list PJob) : option (list PJob) :=
  match q with
  | [] => None
  | j :: r =>
      if eligible now j
      then Some (mkPJob (jid j) active (attempts j + 1) (notBefore j) :: r)
      else option_map (cons j) (claim_first now r)
  end.

(** [baseDelay * 2^(attempts-1)], capped. *)
Definition backoff (cfg : Config) (n : N) : N :=
  N.min (maxDelay cfg) (baseDelay cfg * 2 ^ (n - 1)).

Definition finish_ok (i : N) (j : PJob) : PJob :=
  if (jid j =? i) && is_active j
  then mkPJob (jid j) completed (attempts j) (notBefore j)
  else j.

(** Modelled from the spec: a failed attempt sends the job back to waiting
    behind a backoff delay while attempts remain, and to failed
    otherwise. *)
Definition finish_err (cfg : Config) (now i : N) (j : PJob) : PJob :=
  if (jid j =? i) && is_active j then
    if attempts j <? maxAttempts cfg
    then mkPJob (jid j) waiting (attempts j) (now + backoff cfg (attempts j))
    else mkPJob (jid j) failed (attempts j) (notBefore j)
  else j.

(** Modelled from the spec: one move of the pool, after the worker-pool
    section of the specification (the scheduling loop itself belongs to the
    job library).  A claim happens only while a slot is free and the
    window budget is not used up; otherwise the jobs stay as they are. *)
Definition step (cfg : Config) (s : State) (ev : event) : State :=
  match ev with
  | Enqueue =>
      mkState (clock s) (nextId s + 1)
              (queue s ++ [mkPJob (nextId s) waiting 0 0]) (starts s)
  | Tick dt => mkState (clock s + dt) (nextId s) (queue s) (starts s)
  | Claim =>
      if slot_free cfg s && budget_left cfg s then
        match claim_first (clock s) (queue s) with
        | Some q' => mkState (clock s) (nextId s) q' (clock s :: starts s)
        | None => s
        end
      else s
  | Succeed i => mkState (clock s) (nextId s) (map (finish_ok i) (queue s)) (starts s)
  | Fail i =>
      mkState (clock s) (nextId s) (map (finish_err cfg (clock s) i) (queue s)) (starts s)
  end.

Definition run (cfg : Config) (evs : list event) : State :=
  fold_left (step cfg) evs init.

(** The two pools of [startWorkers]. *)
Definition contentPool (attempts delay cap : N) : Config :=
  {| options := Workers.contentWorkerOptions;
     maxAttempts := attempts; baseDelay := delay; maxDelay := cap |}.

Definition publishPool (attempts delay cap : N) : Config :=
  {| options := Workers.publishWorkerOptions;
     maxAttempts := attempts; baseDelay := delay; maxDelay := cap |}.

End Pool.

(* ===================================================================== *)
(** * Concrete worlds, payloads and schedules                             *)
(* ===================================================================== *)

Module Examples.
Import JS Eff.

Definition unused : error := Error "Error" "not called".

Definition iso_2030 : string := "2030-01-01T00:00:00.000Z".

(** A clock stopped at 2026-01-01, and [Date] parsing of one timestamp. *)
Definition clock_2026 (tr : list call) : Z := 1767225600000.

Definition parse_date (v : value) : Date :=
  match v with
  | VString s => if String.eqb s iso_2030 then Some 1893456000000 else None
  | _ => None
  end.

Definition format_date (t : Z) : string :=
  if t =? 1893456000000 then iso_2030 else "2026-01-01T00:00:00.000Z".

Definition post42 : value :=
  VObject [("id", int 42); ("link", VString "https://blog.example/?p=42")].

Definition status500 : error := Error "AxiosError" "Request failed with status code 500".

(** A WordPress site that creates posts (always post 42) and rejects every
    update. *)
Definition site_rejecting_updates : World :=
  {| openai := fun _ _ => Throw unused;
     axios := fun _ m _ _ => match m with POST => Ok post42 | PUT => Throw status500 end;
     now := clock_2026;
     Date_of := parse_date;
     iso := format_date |}.

(** A WordPress site that accepts everything. *)
Definition site_ok : World :=
  {| openai := fun _ _ => Throw unused;
     axios := fun _ _ _ _ => Ok post42;
     now := clock_2026;
     Date_of := parse_date;
     iso := format_date |}.

Definition seo_example : value :=
  VObject [("title", VString "AI in Healthcare");
           ("description", VString "How machine learning changes patient care.")].

Definition publish_data (status scheduleDate : value) : value :=
  VObject [("content", VString "<p>Hello</p>");
           ("seo", seo_example);
           ("status", status);
           ("scheduleDate", scheduleDate)].

(** A publishing job with a schedule date, as [publishQueue.add] makes it. *)
Definition scheduled_job : BullMQ.Job :=
  fst (BullMQ.add Workers.publishQueue "publish"
         (publish_data (VString "draft") (VString iso_2030))).

(** What the worker sends for [scheduled_job]: the post to create and the
    update that schedules it. *)
Definition created_draft : value :=
  VObject [("title", VString "AI in Healthcare");
           ("content", VString "<p>Hello</p>");
           ("excerpt", VString "How machine learning changes patient care.");
           ("status", VString "draft")].

Definition schedule_2030 : value :=
  VObject [("status", VString "future"); ("date", VString iso_2030)].

(** A publishing job without a schedule date. *)
Definition immediate_job : BullMQ.Job :=
  fst (BullMQ.add Workers.publishQueue "publish"
         (publish_data (VString "publish") VUndefined)).

(** An LLM that answers its n-th call with the n-th of the given replies
    (a reply is the [content] of the only choice) and rejects further
    calls. *)
Definition scripted_llm (replies : list (option string)) : World :=
  {| openai := fun tr _ =>
       match nth_error replies (List.length tr) with
       | Some r => Ok [r]
       | None => Throw (Error "Error" "429 Rate limit exceeded")
       end;
     axios := fun _ _ _ _ => Throw unused;
     now := clock_2026;
     Date_of := parse_date;
     iso := format_date |}.

Definition generation_data : value :=
  VObject [("contentId", VString "0b8f7a9e-3c1d-4e5f-9a6b-7c8d9e0f1a2b");
           ("topic", VString "AI in Healthcare");
           ("keywords", VArray [VString "machine learning"; VString "patient care"]);
           ("wordCount", int 1500)].

(** The generation job of the README's request, as [contentQueue.add]
    makes it. *)
Definition generation_job : BullMQ.Job :=
  fst (BullMQ.add Workers.contentQueue "generate" generation_data).

Definition draft : string := "<p>Hello</p>".

(** An FAQ reply whose only entry has an empty question and answer. *)
Definition blank_faq_reply : string :=
  JSON.text "{'faqs': [{'question': '', 'answer': ''}]}".

(** The README's request answered with a draft, then with text that is
    not JSON. *)
Definition llm_unparseable_seo : World :=
  scripted_llm [Some draft; Some "Sorry, I cannot help."].

(** The README's request answered with a draft, a null SEO reply and a
    blank FAQ entry. *)
Definition llm_blank_replies : World :=
  scripted_llm [Some draft; None; Some blank_faq_reply].

(** The publishing queue after one submission to [POST /api/publish], and
    the content queue after one submission to [POST /api/content/generate]:
    each holds one waiting job, with id 1. *)
Definition publish_queue_1 : BullMQ.Queue :=
  snd (Routes.Publish.post (publish_data (VString "publish") VUndefined)
         Workers.publishQueue).

Definition content_queue_1 : BullMQ.Queue :=
  snd (Routes.Content.generate "0b8f7a9e-3c1d-4e5f-9a6b-7c8d9e0f1a2b"
         (VObject [("topic", VString "AI in Healthcare");
                   ("keywords", VArray [VString "machine learning"; VString "patient care"]);
                   ("wordCount", int 1500)])
         Workers.contentQueue).

(** Eleven submissions, then ten claims, each followed by the success of
    the job it started: ten task starts at time 0, one job still waiting. *)
Definition burst : list Pool.event :=
  repeat Pool.Enqueue 11 ++
  flat_map (fun i => [Pool.Claim; Pool.Succeed i]) (map N.of_nat (seq 0 10)).

End Examples.

(* ===================================================================== *)
(** * Names for what the handlers build                                   *)
(* ===================================================================== *)

Module Views.
Import JS Eff Routes.

(** The data [routes/publish.ts] hands to [publishQueue.add] for a body
    with the own properties [ms]. *)
Definition publish_job_data (ms : list (string * value)) : value :=
  VObject [("content", lookup_member "content" ms);
           ("seo", lookup_member "seo" ms);
           ("status", or_else (lookup_member "status" ms) (VString "draft"));
           ("scheduleDate", lookup_member "scheduleDate" ms)].

(** The data [routes/content.ts] hands to [contentQueue.add]; [count] is
    what [parseInt(wordCount)] returned. *)
Definition generate_job_data (uuid : string) (topic keywords : value) (count : number)
  : value :=
  VObject [("contentId", VString uuid);
           ("topic", topic);
           ("keywords", keywords);
           ("wordCount", VNum count)].

Definition generate_body (topic keywords wordCount : value) : value :=
  VObject [("topic", topic); ("keywords", keywords); ("wordCount", wordCount)].

Definition missing_fields : Response :=
  status_json 400
    (VObject [("error", VString "Missing required fields: topic, keywords, wordCount")]).

Definition generation_started (uuid : string) (q : BullMQ.Queue) : Response :=
  json (VObject [("jobId", VString (digits (BullMQ.counter q + 1)));
                 ("contentId", VString uuid);
                 ("status", VString "processing");
                 ("message", VString "Content generation started")]).

End Views.

(* ===================================================================== *)
(** * Proof automation                                                    *)
(* ===================================================================== *)

Module Tactics.
Import JS Eff Routes.

(** Unfolds a job's run down to its processor. *)
Ltac run_worker :=
  unfold Workers.runPublishJob, Workers.runContentJob, Workers.startWorkers,
    Workers.startContentWorker, Workers.startPublishWorker;
  cbn [fst snd BullMQ.processFn];
  unfold BullMQ.processJob.

(** Unfolds one run of a processor down to the remote calls. *)
Ltac run_processor :=
  run_worker;
  unfold
    Workers.publishProcessor, Workers.contentProcessor,
    LLMService.generateBlogPost, LLMService.generateSEOMetadata,
    LLMService.generateFAQSchema,
    WordPressService.createPost, WordPressService.schedulePost,
    client_post, client_put, chat_completions_create, Date_new,
    console_log, bind, lift, ret; cbn [BullMQ.data fst snd app].

(** Case analysis on the next step of an unfolded run in hypothesis [H]. *)
Ltac next_step H :=
  match type of H with
  | context [match getMember ?v ?k with _ => _ end] =>
      let E := fresh "E" in destruct (getMember v k) eqn:E; cbn in H
  | context [match axios ?w ?tr ?m ?u ?b with _ => _ end] =>
      let E := fresh "E" in destruct (axios w tr m u b) eqn:E; cbn in H
  | context [match openai ?w ?tr ?r with _ => _ end] =>
      let E := fresh "E" in destruct (openai w tr r) eqn:E; cbn in H
  | context [match toISOString ?w ?d with _ => _ end] =>
      let E := fresh "E" in destruct (toISOString w d) eqn:E; cbn in H
  | context [match Date_from ?w ?v with _ => _ end] =>
      let E := fresh "E" in destruct (Date_from w v) eqn:E; cbn in H
  | context [match call_join ?n ?v ?s with _ => _ end] =>
      let E := fresh "E" in destruct (call_join n v s) eqn:E; cbn in H
  | context [match ToString ?v with _ => _ end] =>
      let E := fresh "E" in destruct (ToString v) eqn:E; cbn in H
  | context [match LLMService.first_content ?r with _ => _ end] =>
      destruct r as [|? ?]; cbn in H
  | context [match JSON.parse ?t with _ => _ end] =>
      let E := fresh "E" in destruct (JSON.parse t) eqn:E; cbn in H
  end.

(** Unfolds a route handler. *)
Ltac run_handler :=
  unfold Publish.post, Publish.getJobStatus, Content.generate, Content.getJobStatus,
    handler, queue_add, queue_getJob, bind, lift, ret; cbn [getMember].

End Tactics.

(* ===================================================================== *)
(** * Configuration read from the environment                             *)
(* ===================================================================== *)

Module Environment.
Import JS.




End Environment.

(* ===================================================================== *)
(** * Requests served one after the other                                 *)
(* ===================================================================== *)

Module Sessions.
Import JS Routes Views.

(** A request to one of the two routers. *)
Inductive request : Type :=
| Submit (uuid : string) (body : value)   (* POST: publish, or generate with the uuid drawn *)
| Query (jobId : string).                 (* GET /job/:jobId *)

(** The publish router serving a request on its queue. *)
Definition servePublish (q : BullMQ.Queue) (r : request) : Response * BullMQ.Queue :=
  match r with
  | Submit _ body => Publish.post body q
  | Query jobId => Publish.getJobStatus jobId q
  end.

(** The content router serving a request on its queue. *)
Definition serveContent (q : BullMQ.Queue) (r : request) : Response * BullMQ.Queue :=
  match r with
  | Submit uuid body => Content.generate uuid body q
  | Query jobId => Content.getJobStatus jobId q
  end.

(** The queue after a router served the requests in order. *)
Definition after (serve : BullMQ.Queue -> request -> Response * BullMQ.Queue)
  (q : BullMQ.Queue) (rs : list request) : BullMQ.Queue :=
  fold_left (fun q r => snd (serve q r)) rs q.

(** Every job of the queue sits under the decimal numeral of a number the
    queue has handed out, and carries that numeral as its id. *)
Definition ids_issued (q : BullMQ.Queue) : Prop :=
  forall jid j,
    BullMQ.getJob q jid = Some j ->
    exists n, (1 <= n <= BullMQ.counter q)%N /\ jid = digits n /\ BullMQ.id j = jid.

(** What a status route answers for a job that was just enqueued. *)
Definition fresh_publish_status (jobId : string) : Response :=
  json (VObject [("jobId", VString jobId); ("state", VString "waiting");
                 ("result", VNull); ("failedReason", VUndefined)]).

Definition fresh_content_status (jobId : string) : Response :=
  json (VObject [("jobId", VString jobId); ("state", VString "waiting");
                 ("progress", int 0);
                 ("result", VNull); ("failedReason", VUndefined)]).

(** A handler's answer to an exception. *)
Definition server_error (failure : string) : Response :=
  status_json 500 (VObject [("error", VString failure)]).

(** A job ends failed with the message of [e], nothing stored. *)
Definition failed_with (before after : BullMQ.Job) (e : error) : Prop :=
  BullMQ.state after = BullMQ.failed /\
  BullMQ.failedReason after = VString (message e) /\
  BullMQ.returnvalue after = BullMQ.returnvalue before.

(** [typeof v === 'object'] for a value that is not [null] and no array. *)
Definition is_object (v : value) : bool :=
  match v with VObject _ => true | _ => false end.

Definition is_nullish (v : value) : bool :=
  match v with VUndefined | VNull => true | _ => false end.

Definition publish_missing_fields : Response :=
  status_json 400 (VObject [("error", VString "Missing required fields: content, seo")]).

Definition publishing_started (q : BullMQ.Queue) : Response :=
  json (VObject [("jobId", VString (digits (BullMQ.counter q + 1)));
                 ("status", VString "publishing");
                 ("message", VString "Publishing started")]).

(** The number a digit sequence denotes when read after [acc]. *)
Fixpoint uval (acc : Z) (d : Decimal.uint) : Z :=
  match d with
  | Decimal.Nil => acc
  | Decimal.D0 l => uval (acc * 10 + 0) l
  | Decimal.D1 l => uval (acc * 10 + 1) l
  | Decimal.D2 l => uval (acc * 10 + 2) l
  | Decimal.D3 l => uval (acc * 10 + 3) l
  | Decimal.D4 l => uval (acc * 10 + 4) l
  | Decimal.D5 l => uval (acc * 10 + 5) l
  | Decimal.D6 l => uval (acc * 10 + 6) l
  | Decimal.D7 l => uval (acc * 10 + 7) l
  | Decimal.D8 l => uval (acc * 10 + 8) l
  | Decimal.D9 l => uval (acc * 10 + 9) l
  end.

(** [Array.isArray] *)
Definition is_array (v : value) : bool :=
  match v with VArray _ => true | _ => false end.

(** [Object.hasOwn(v, k)] for a JSON value. *)
Definition has_own (v : value) (k : string) : bool :=
  match v with
  | VObject ms => has_member k ms
  | _ => false
  end.

(** A string of one-byte characters: its bytes are its code units. *)
Fixpoint is_ascii (s : string) : bool :=
  match s with
  | "" => true
  | String c r => (nat_of_ascii c <? 128)%nat && is_ascii r
  end.

(** [v === Infinity || v === -Infinity] *)
Definition is_infinite (v : value) : bool :=
  match v with
  | VNum (Dec m e) => rounds_to_infinity m e
  | _ => false
  end.

(** The job data read by the publish processor: its four fields and the
    title and description of its [seo]. *)
Definition publish_reads (job : BullMQ.Job)
  (content seo status scheduleDate title description : value) : Prop :=
  getMember (BullMQ.data job) "content" = Ok content /\
  getMember (BullMQ.data job) "seo" = Ok seo /\
  getMember (BullMQ.data job) "status" = Ok status /\
  getMember (BullMQ.data job) "scheduleDate" = Ok scheduleDate /\
  getMember seo "title" = Ok title /\
  getMember seo "description" = Ok description.

(** The post the publish processor asks the site to create. *)
Definition new_post (title content description status : value) : value :=
  VObject [("title", title); ("content", content); ("excerpt", description);
           ("status", or_else status (VString "draft"))].

End Sessions.

(* ===================================================================== *)
(** * More worlds and payloads                                            *)
(* ===================================================================== *)

Module MoreExamples.
Import JS Eff Examples.

Definition status503 : error := Error "AxiosError" "Request failed with status code 503".

(** A WordPress site that rejects every request. *)
Definition site_down : World :=
  {| openai := fun _ _ => Throw unused;
     axios := fun _ _ _ _ => Throw status503;
     now := clock_2026;
     Date_of := parse_date;
     iso := format_date |}.

(** A publishing job whose schedule date is no date. *)
Definition badly_scheduled_job : BullMQ.Job :=
  fst (BullMQ.add Workers.publishQueue "publish"
         (publish_data (VString "draft") (VString "next week"))).

Definition created_publish : value :=
  VObject [("title", VString "AI in Healthcare");
           ("content", VString "<p>Hello</p>");
           ("excerpt", VString "How machine learning changes patient care.");
           ("status", VString "publish")].

(** A WordPress site that answers every request with an empty body. *)
Definition site_answering_nothing : World :=
  {| openai := fun _ _ => Throw unused;
     axios := fun _ _ _ _ => Ok VNull;
     now := clock_2026;
     Date_of := parse_date;
     iso := format_date |}.

(** A WordPress site that answers every request with the text OK. *)
Definition site_answering_text : World :=
  {| openai := fun _ _ => Throw unused;
     axios := fun _ _ _ _ => Ok (VString "OK");
     now := clock_2026;
     Date_of := parse_date;
     iso := format_date |}.

(** A WordPress site that answers every request with a body that has
    neither an [id] nor a [link]. *)
Definition site_answering_status_only : World :=
  {| openai := fun _ _ => Throw unused;
     axios := fun _ _ _ _ => Ok (VObject [("status", VString "ok")]);
     now := clock_2026;
     Date_of := parse_date;
     iso := format_date |}.

(** A publishing job as the publish route enqueues it for a body whose
    [seo.title] is an object with a property named toString. *)
Definition unprintable_job : BullMQ.Job :=
  fst (BullMQ.add Workers.publishQueue "publish"
         (VObject [("content", VString "<p>Hello</p>");
                   ("seo", VObject [("title", VObject [("toString", int 1)])]);
                   ("status", VString "draft");
                   ("scheduleDate", VUndefined)])).

(** A generation request whose keywords are one string. *)
Definition keywords_as_text : list (string * value) :=
  [("topic", VString "AI in Healthcare");
   ("keywords", VString "machine learning, patient care");
   ("wordCount", VString "1500 words")].


End MoreExamples.

(* ===================================================================== *)
(** * More proof automation                                               *)
(* ===================================================================== *)

Module MoreTactics.
Import JS Eff Tactics Sessions.

(** Unfolds a publish run whose job data is given by [publish_reads]. *)
Ltac run_publish Hreads :=
  destruct Hreads as (Hc & Hs & Hst & Hsd & Ht & Hd);
  unfold new_post in *; run_processor;
  rewrite Hc, Hs, Hst, Hsd, Ht, Hd.

(** Case analysis on every step of an unfolded run in hypothesis [H],
    the test of the schedule date included. *)
Ltac all_steps H :=
  repeat first
    [ next_step H
    | match type of H with
      | context [if truthy ?v then _ else _] =>
          let E := fresh "E" in destruct (truthy v) eqn:E; cbn in H
      end ].

(** Evaluates the character tests of [parseInt] on the characters at
    hand. *)
Ltac eval_chars :=
  repeat match goal with
    | |- context [is_space ?c] =>
        let v := eval vm_compute in (is_space c) in change (is_space c) with v
    | |- context [digit_value ?r ?c] =>
        let v := eval vm_compute in (digit_value r c) in change (digit_value r c) with v
    end.

End MoreTactics.

(* ===================================================================== *)
(** * Conversions to strings                                              *)
(* ===================================================================== *)

Module ConversionProperties.
Import JS.

(** Induction on values, with the elements of an array and the members of
    an object covered. *)
Lemma value_induction (P : value -> Prop) :
  P VUndefined -> P VNull -> (forall b, P (VBool b)) -> (forall n, P (VNum n)) ->
  (forall s, P (VString s)) ->
  (forall xs, Forall P xs -> P (VArray xs)) ->
  (forall ms, Forall (fun kv => P (snd kv)) ms -> P (VObject ms)) ->
  forall v, P v.
Proof.
  intros Hu Hn Hb Hnum Hs Ha Ho. fix IH 1.
  intros [| | b | n | s | xs | ms];
    [exact Hu | exact Hn | apply Hb | apply Hnum | apply Hs | |].
  - apply Ha. induction xs as [|x r IHr]; constructor; [apply IH | exact IHr].
  - apply Ho. induction ms as [|[k x] r IHr]; constructor; [apply IH | exact IHr].
Qed.

(** An array prints as its elements joined by commas. *)
Lemma ToString_array (xs : list value) : ToString (VArray xs) = Array_join xs ",".
Proof.
  unfold Array_join. cbn [ToString].
  match goal with
  | |- match ?elems xs with _ => _ end = _ =>
      assert (H : elems xs = element_strings xs)
  end.
  { induction xs as [|x r IHr]; [reflexivity|].
    cbn [element_strings]. rewrite <- IHr. destruct x; reflexivity. }
  rewrite H. reflexivity.
Qed.

(** [ToString] throws one error only. *)
Lemma ToString_throws (v : value) (e : error) :
  ToString v = Throw e -> e = cannot_convert.
Proof.
  revert e. induction v as [| | b | n | s | xs IH | ms _] using value_induction;
    intros e.
  1-5: try destruct b; discriminate.
  - rewrite ToString_array. unfold Array_join.
    assert (Hel : forall e', element_strings xs = Throw e' -> e' = cannot_convert).
    { induction IH as [|x r Hx _ IHr]; intros e'; [discriminate|].
      cbn [element_strings].
      destruct (element_string x) as [sx|ex] eqn:Ex.
      - destruct (element_strings r) as [ss|er]; [discriminate|].
        intros H. injection H as <-. apply IHr. reflexivity.
      - intros H. injection H as <-. apply Hx.
        destruct x; try discriminate; exact Ex. }
    destruct (element_strings xs) as [ss|e1]; [discriminate|].
    intros H. injection H as <-. apply Hel. reflexivity.
  - cbn [ToString]. destruct (has_member "toString" ms); [|discriminate].
    intros H. injection H as <-. reflexivity.
Qed.

(** Whatever [join] throws is a [TypeError]. *)
Lemma call_join_throws (nm : string) (v : value) (sep : string) (e : error) :
  call_join nm v sep = Throw e -> name e = "TypeError".
Proof.
  destruct v; cbn [call_join]; try (intros H; injection H as <-; reflexivity).
  unfold Array_join. intros H.
  assert (Hs : ToString (VArray xs) = Throw e).
  { rewrite ToString_array. unfold Array_join.
    destruct (element_strings xs); [discriminate|]. injection H as <-. reflexivity. }
  rewrite (ToString_throws _ _ Hs). reflexivity.
Qed.

(** No white space is skipped in front of a character of one byte that is
    no white space itself. *)
Lemma trim_start_ascii (c : ascii) (r : string) :
  is_space c = false -> (nat_of_ascii c <? 128)%nat = true ->
  trim_start (String c r) = String c r.
Proof.
  intros Hsp Hc. cbn [trim_start]. rewrite Hsp.
  destruct c as [[] [] [] [] [] [] [] []]; try discriminate;
    destruct r as [|c2 [|c3 r3]]; reflexivity.
Qed.

(** [parseInt] finds no number in a string that starts with a character of
    one byte that is no white space, no sign and no digit. *)
Lemma parseInt_string_NaN (c : ascii) (rest : string) :
  (nat_of_ascii c <? 128)%nat = true ->
  is_space c = false -> Ascii.eqb c "-" = false -> Ascii.eqb c "+" = false ->
  digit_value 10 c = None ->
  parseInt_string (String c rest) = NaN.
Proof.
  intros Hascii Hsp Hm Hp Hd.
  unfold parseInt_string. rewrite (trim_start_ascii c rest Hsp Hascii).
  destruct c as [[] [] [] [] [] [] [] []]; try discriminate; reflexivity.
Qed.

(** A [Date] that was constructed is the one [Date_of] gives. *)
Lemma Date_from_ok (w : Eff.World) (v : value) (d : Eff.Date) :
  Eff.Date_from w v = Ok d -> d = Eff.Date_of w v.
Proof.
  unfold Eff.Date_from. destruct (ToString v); [|discriminate].
  intros H. injection H as <-. reflexivity.
Qed.

End ConversionProperties.

(* ===================================================================== *)
(** * Properties of the publishing pipeline                               *)
(* ===================================================================== *)

Module PublishProperties.
Import JS Eff Examples MoreExamples Tactics Sessions.

(** C1, as the specification words it, fails: a site creates post 42 and
    then rejects the scheduling update with status 500.  The job is failed
    after both calls, and its failure reason is the message of the rejected
    update, in which the id 42 does not occur. *)
Lemma schedule_failure_reason_lacks_post_id :
  getMember (BullMQ.data scheduled_job) "scheduleDate" = Ok (VString iso_2030) /\
  snd (Workers.runPublishJob site_rejecting_updates scheduled_job)
    = [Http POST "/posts" created_draft; Http PUT "/posts/42" schedule_2030] /\
  axios site_rejecting_updates [] POST "/posts" created_draft = Ok post42 /\
  getMember post42 "id" = Ok (int 42) /\
  axios site_rejecting_updates [Http POST "/posts" created_draft]
        PUT "/posts/42" schedule_2030 = Throw status500 /\
  BullMQ.state (fst (Workers.runPublishJob site_rejecting_updates scheduled_job))
    = BullMQ.failed /\
  BullMQ.failedReason (fst (Workers.runPublishJob site_rejecting_updates scheduled_job))
    = VString "Request failed with status code 500" /\
  ToString (int 42) = Ok "42" /\
  includes "Request failed with status code 500" "42" = false.
Proof. vm_compute. repeat split; reflexivity. Qed.

(** C1, amended: when a publishing job with a schedule date has printed
    its first log line (the SEO title converts to a string), its create-post
    call succeeds and the scheduling call then throws, the job ends failed,
    its failure reason is exactly the message of the error the scheduling
    call threw, and no result is stored. *)
Theorem schedule_failure_reason
  (w : World) (job : BullMQ.Job)
  (content seo status scheduleDate title description post postId : value)
  (titleText : string) (date : Date) (e : error) :
  let d := BullMQ.data job in
  let created :=
    VObject [("title", title); ("content", content); ("excerpt", description);
             ("status", or_else status (VString "draft"))] in
  getMember d "content" = Ok content ->
  getMember d "seo" = Ok seo ->
  getMember d "status" = Ok status ->
  getMember d "scheduleDate" = Ok scheduleDate ->
  getMember seo "title" = Ok title ->
  getMember seo "description" = Ok description ->
  ToString title = Ok titleText ->
  truthy scheduleDate = true ->
  axios w [] POST "/posts" created = Ok post ->
  getMember post "id" = Ok postId ->
  Date_from w scheduleDate = Ok date ->
  fst (WordPressService.schedulePost w postId date
         [Http POST "/posts" created]) = Throw e ->
  let job' := fst (Workers.runPublishJob w job) in
  BullMQ.state job' = BullMQ.failed /\
  BullMQ.failedReason job' = VString (message e) /\
  BullMQ.returnvalue job' = BullMQ.returnvalue job.
Proof.
  intros d created Hc Hs Hst Hsd Ht Hd Hprint Htr Hpost Hid Hdate Hsched job'.
  subst job' d created. revert Hsched. run_processor.
  rewrite Hc, Hs, Hst, Hsd, Ht, Hprint, Hd, Hpost, Htr, Hid, Hdate.
  destruct (ToString postId) as [idText|e1]; cbn.
  - destruct (toISOString w date) as [iso_d|e1]; cbn.
    + destruct (axios w _ PUT _ _) as [r|e1]; cbn; intros H; [discriminate|].
      injection H as <-. auto.
    + intros H. injection H as <-. auto.
  - intros H. injection H as <-. auto.
Qed.

Lemma schedule_failure_reason_witness :
  BullMQ.state (fst (Workers.runPublishJob site_rejecting_updates scheduled_job))
    = BullMQ.failed /\
  BullMQ.failedReason (fst (Workers.runPublishJob site_rejecting_updates scheduled_job))
    = VString (message status500) /\
  BullMQ.returnvalue (fst (Workers.runPublishJob site_rejecting_updates scheduled_job))
    = BullMQ.returnvalue scheduled_job.
Proof.
  apply (schedule_failure_reason site_rejecting_updates scheduled_job
           (VString "<p>Hello</p>") seo_example (VString "draft") (VString iso_2030)
           (VString "AI in Healthcare")
           (VString "How machine learning changes patient care.")
           post42 (int 42) "AI in Healthcare" (Some 1893456000000) status500);
    reflexivity.
Defined.

(** C6, as the specification words it, fails: a site answers the
    create-post call with a body that has neither an id nor a link.  The
    job without a schedule date completes after that one call, and the
    result it stores holds the time of completion alone: no post id, no
    URL. *)
Lemma immediate_publish_result_lacks_id_and_url :
  getMember (BullMQ.data immediate_job) "scheduleDate" = Ok VUndefined /\
  snd (Workers.runPublishJob site_answering_status_only immediate_job)
    = [Http POST "/posts" created_publish] /\
  axios site_answering_status_only [] POST "/posts" created_publish
    = Ok (VObject [("status", VString "ok")]) /\
  BullMQ.state (fst (Workers.runPublishJob site_answering_status_only immediate_job))
    = BullMQ.completed /\
  BullMQ.returnvalue (fst (Workers.runPublishJob site_answering_status_only immediate_job))
    = VObject [("publishedAt", VString "2026-01-01T00:00:00.000Z")] /\
  has_own (BullMQ.returnvalue
             (fst (Workers.runPublishJob site_answering_status_only immediate_job)))
          "wordpressId" = false /\
  has_own (BullMQ.returnvalue
             (fst (Workers.runPublishJob site_answering_status_only immediate_job)))
          "wordpressUrl" = false.
Proof. vm_compute. repeat split; reflexivity. Qed.

(** C6, amended: a publishing job without a schedule date that runs to
    completion has made exactly one remote call, the create-post call, and
    no scheduling call.  Its stored result is
    [{wordpressId, wordpressUrl, publishedAt}] as JSON keeps it, where
    [wordpressId] and [wordpressUrl] are whatever the site's answer holds
    under [id] and [link]: the result has a [wordpressId] exactly when the
    answer has an [id], and a [wordpressUrl] exactly when the answer has a
    [link].  The time of completion is always there. *)
Theorem immediate_publish_outcome
  (w : World) (job job' : BullMQ.Job) (calls : list call) (scheduleDate : value) :
  Workers.runPublishJob w job = (job', calls) ->
  getMember (BullMQ.data job) "scheduleDate" = Ok scheduleDate ->
  truthy scheduleDate = false ->
  BullMQ.state job' = BullMQ.completed ->
  exists created post postId link,
    calls = [Http POST "/posts" created] /\
    axios w [] POST "/posts" created = Ok post /\
    getMember post "id" = Ok postId /\
    getMember post "link" = Ok link /\
    BullMQ.returnvalue job' =
      JSON.roundtrip
        (VObject [("wordpressId", postId);
                  ("wordpressUrl", link);
                  ("publishedAt", VString (iso w (now w calls)))]) /\
    getMember (BullMQ.returnvalue job') "publishedAt"
      = Ok (VString (iso w (now w calls))) /\
    (has_own (BullMQ.returnvalue job') "wordpressId" = false <-> postId = VUndefined) /\
    (has_own (BullMQ.returnvalue job') "wordpressUrl" = false <-> link = VUndefined).
Proof.
  intros Hrun Hsd Hfalsy Hdone. revert Hrun. run_processor.
  rewrite Hsd. cbn. rewrite Hfalsy. intros Hrun.
  repeat (next_step Hrun;
          try (injection Hrun as <- <-; cbn in Hdone; discriminate)).
  injection Hrun as <- <-.
  eexists _, _, _, _.
  do 5 (split; [first [reflexivity | eassumption]|]).
  cbn [BullMQ.returnvalue].
  repeat match goal with
         | H : getMember _ "id" = Ok ?a |- _ => is_var a; clear H; destruct a
         | H : getMember _ "link" = Ok ?b |- _ => is_var b; clear H; destruct b
         end;
    (split; [reflexivity|]);
    split; split; intros H; first [reflexivity | discriminate H].
Qed.

Lemma immediate_publish_outcome_witness :
  exists created post postId link,
    [Http POST "/posts"
       (VObject [("title", VString "AI in Healthcare");
                 ("content", VString "<p>Hello</p>");
                 ("excerpt", VString "How machine learning changes patient care.");
                 ("status", VString "publish")])]
      = [Http POST "/posts" created] /\
    axios site_ok [] POST "/posts" created = Ok post /\
    getMember post "id" = Ok postId /\
    getMember post "link" = Ok link /\
    BullMQ.returnvalue (fst (Workers.runPublishJob site_ok immediate_job)) =
      JSON.roundtrip
        (VObject [("wordpressId", postId);
                  ("wordpressUrl", link);
                  ("publishedAt", VString "2026-01-01T00:00:00.000Z")]) /\
    getMember (BullMQ.returnvalue (fst (Workers.runPublishJob site_ok immediate_job)))
      "publishedAt" = Ok (VString "2026-01-01T00:00:00.000Z") /\
    (has_own (BullMQ.returnvalue (fst (Workers.runPublishJob site_ok immediate_job)))
             "wordpressId" = false <-> postId = VUndefined) /\
    (has_own (BullMQ.returnvalue (fst (Workers.runPublishJob site_ok immediate_job)))
             "wordpressUrl" = false <-> link = VUndefined).
Proof.
  apply (immediate_publish_outcome site_ok immediate_job
           (fst (Workers.runPublishJob site_ok immediate_job))
           (snd (Workers.runPublishJob site_ok immediate_job))
           VUndefined); reflexivity.
Defined.

End PublishProperties.

(* ===================================================================== *)
(** * Properties of the route handlers                                    *)
(* ===================================================================== *)

Module RouteProperties.
Import JS Eff Examples Routes Views Sessions Tactics ConversionProperties.

(** C3, as the specification words it, fails: a submission whose status is
    the string private is answered with 200 and a job id, and the job
    sits in the queue with that status. *)
Lemma publish_accepts_unknown_status :
  fst (Publish.post (publish_data (VString "private") VUndefined) Workers.publishQueue)
    = json (VObject [("jobId", VString "1");
                     ("status", VString "publishing");
                     ("message", VString "Publishing started")]) /\
  exists job,
    BullMQ.getJob
      (snd (Publish.post (publish_data (VString "private") VUndefined)
              Workers.publishQueue)) "1" = Some job /\
    BullMQ.state job = BullMQ.waiting /\
    getMember (BullMQ.data job) "status" = Ok (VString "private").
Proof.
  split; [reflexivity|]. vm_compute. eexists. repeat split; reflexivity.
Qed.

(** C3, amended: a publish submission is turned away before anything is
    enqueued (status 400, the queue left as it was, so nothing is there to
    be retried) exactly when its content or its seo is missing or falsy.
    Every other submission is enqueued: a missing or falsy status is stored
    as draft, and any other status value is stored as it was sent. *)
Theorem publish_validation (ms : list (string * value)) (q : BullMQ.Queue) :
  Publish.post (VObject ms) q =
    if truthy (lookup_member "content" ms) && truthy (lookup_member "seo" ms)
    then
      (json (VObject [("jobId", VString (digits (BullMQ.counter q + 1)));
                      ("status", VString "publishing");
                      ("message", VString "Publishing started")]),
       snd (BullMQ.add q "publish" (publish_job_data ms)))
    else
      (status_json 400 (VObject [("error", VString "Missing required fields: content, seo")]),
       q).
Proof.
  run_handler.
  destruct (truthy (lookup_member "content" ms)); cbn; [|reflexivity].
  destruct (truthy (lookup_member "seo" ms)); reflexivity.
Qed.

(** C7 at the publishing queue: the status of the one job of a queue is
    answered with [jobId], [state], [result] and [failedReason] and no
    [progress], while the content route answers the same question with
    [progress] included. *)
Lemma publish_job_status_omits_progress :
  fst (Publish.getJobStatus "1" publish_queue_1) =
    json (VObject [("jobId", VString "1"); ("state", VString "waiting");
                   ("result", VNull); ("failedReason", VUndefined)]) /\
  fst (Content.getJobStatus "1" content_queue_1) =
    json (VObject [("jobId", VString "1"); ("state", VString "waiting");
                   ("progress", int 0);
                   ("result", VNull); ("failedReason", VUndefined)]).
Proof. vm_compute. split; reflexivity. Qed.

(** Both job-status routes answer 404 for an id the queue does not know. *)
Lemma job_status_not_found (jobId : string) (q : BullMQ.Queue) :
  BullMQ.getJob q jobId = None ->
  Publish.getJobStatus jobId q =
    (status_json 404 (VObject [("error", VString "Job not found")]), q) /\
  Content.getJobStatus jobId q =
    (status_json 404 (VObject [("error", VString "Job not found")]), q).
Proof. intros H. run_handler. rewrite H. split; reflexivity. Qed.

(** The job-status routes for an id the queue knows. *)
Lemma job_status_found (jobId : string) (q : BullMQ.Queue) (job : BullMQ.Job) :
  BullMQ.getJob q jobId = Some job ->
  Publish.getJobStatus jobId q =
    (json (VObject [("jobId", VString (BullMQ.id job));
                    ("state", VString (BullMQ.state_name (BullMQ.state job)));
                    ("result", BullMQ.returnvalue job);
                    ("failedReason", BullMQ.failedReason job)]), q) /\
  Content.getJobStatus jobId q =
    (json (VObject [("jobId", VString (BullMQ.id job));
                    ("state", VString (BullMQ.state_name (BullMQ.state job)));
                    ("progress", BullMQ.progress job);
                    ("result", BullMQ.returnvalue job);
                    ("failedReason", BullMQ.failedReason job)]), q).
Proof. intros H. run_handler. rewrite H. split; reflexivity. Qed.

(** The generate route on a JSON object body: it is turned away as missing
    fields when its topic, keywords or wordCount is missing or falsy; it is
    answered with a server error when [parseInt] throws on the word count;
    otherwise it is enqueued with what [parseInt] made of the word count. *)
Lemma generate_by_cases (uuid : string) (ms : list (string * value)) (q : BullMQ.Queue) :
  Content.generate uuid (VObject ms) q =
    if truthy (lookup_member "topic" ms) && truthy (lookup_member "keywords" ms)
       && truthy (lookup_member "wordCount" ms)
    then
      match parseInt (lookup_member "wordCount" ms) with
      | Ok count =>
          (generation_started uuid q,
           snd (BullMQ.add q "generate"
                  (generate_job_data uuid (lookup_member "topic" ms)
                     (lookup_member "keywords" ms) count)))
      | Throw _ => (server_error "Failed to start content generation", q)
      end
    else (missing_fields, q).
Proof.
  run_handler.
  destruct (truthy (lookup_member "topic" ms)); cbn; [|reflexivity].
  destruct (truthy (lookup_member "keywords" ms)); cbn; [|reflexivity].
  destruct (truthy (lookup_member "wordCount" ms)); cbn; [|reflexivity].
  destruct (parseInt (lookup_member "wordCount" ms)); reflexivity.
Qed.

(** C10: the generate route tests its three inputs for truthiness and for
    nothing else.  A body is turned away as missing fields, with nothing
    enqueued, when its topic, keywords or wordCount is missing or falsy.  A
    body whose three fields are truthy is never turned away as missing
    fields: it is enqueued with its topic and its keywords as they came,
    whatever they are, and with some number for the word count, unless the
    word count cannot be converted to a string at all (then the answer is
    the server error and nothing is enqueued).  So an empty topic and a word
    count of 0 are turned away, and the word count abc passes and is
    enqueued as [NaN], with keywords of any truthy value; so does every
    word count that is a string starting with an ASCII character other than
    white space, a sign or a digit. *)
Theorem generate_checks_truthiness_only (uuid : string) (q : BullMQ.Queue) :
  (forall ms,
      truthy (lookup_member "topic" ms) && truthy (lookup_member "keywords" ms)
        && truthy (lookup_member "wordCount" ms) = false ->
      Content.generate uuid (VObject ms) q = (missing_fields, q)) /\
  (forall ms,
      truthy (lookup_member "topic" ms) && truthy (lookup_member "keywords" ms)
        && truthy (lookup_member "wordCount" ms) = true ->
      (forall e,
          ToString (lookup_member "wordCount" ms) = Throw e ->
          Content.generate uuid (VObject ms) q
            = (server_error "Failed to start content generation", q)) /\
      (forall printed,
          ToString (lookup_member "wordCount" ms) = Ok printed ->
          exists count,
            Content.generate uuid (VObject ms) q
              = (generation_started uuid q,
                 snd (BullMQ.add q "generate"
                        (VObject [("contentId", VString uuid);
                                  ("topic", lookup_member "topic" ms);
                                  ("keywords", lookup_member "keywords" ms);
                                  ("wordCount", VNum count)]))))) /\
  (forall keywords wordCount,
      Content.generate uuid (generate_body (VString "") keywords wordCount) q
        = (missing_fields, q)) /\
  (forall topic keywords,
      Content.generate uuid (generate_body topic keywords (int 0)) q
        = (missing_fields, q)) /\
  (forall topic keywords,
      truthy topic = true -> truthy keywords = true ->
      Content.generate uuid (generate_body topic keywords (VString "abc")) q
        = (generation_started uuid q,
           snd (BullMQ.add q "generate"
                  (VObject [("contentId", VString uuid);
                            ("topic", topic);
                            ("keywords", keywords);
                            ("wordCount", VNum NaN)])))) /\
  (forall topic keywords c rest,
      truthy topic = true -> truthy keywords = true ->
      (nat_of_ascii c <? 128)%nat = true ->
      is_space c = false -> Ascii.eqb c "-" = false -> Ascii.eqb c "+" = false ->
      digit_value 10 c = None ->
      Content.generate uuid (generate_body topic keywords (VString (String c rest))) q
        = (generation_started uuid q,
           snd (BullMQ.add q "generate"
                  (VObject [("contentId", VString uuid);
                            ("topic", topic);
                            ("keywords", keywords);
                            ("wordCount", VNum NaN)])))).
Proof.
  split; [|split; [|split; [|split; [|split]]]].
  - intros ms H. rewrite generate_by_cases, H. reflexivity.
  - intros ms H. split.
    + intros e He. rewrite generate_by_cases, H. unfold parseInt. rewrite He.
      reflexivity.
    + intros printed Hp. exists (parseInt_string printed).
      rewrite generate_by_cases, H. unfold parseInt. rewrite Hp. reflexivity.
  - intros keywords wordCount. unfold generate_body. rewrite generate_by_cases.
    reflexivity.
  - intros topic keywords. unfold generate_body. rewrite generate_by_cases. cbn.
    destruct (truthy topic), (truthy keywords); reflexivity.
  - intros topic keywords Ht Hk. unfold generate_body. rewrite generate_by_cases.
    cbn. rewrite Ht, Hk. reflexivity.
  - intros topic keywords c rest Ht Hk Hascii Hsp Hm Hp Hd.
    unfold generate_body. rewrite generate_by_cases.
    cbn [lookup_member String.eqb Ascii.eqb Bool.eqb]. rewrite Ht, Hk.
    unfold parseInt. cbn [ToString truthy String.eqb negb andb].
    rewrite (parseInt_string_NaN c rest Hascii Hsp Hm Hp Hd). reflexivity.
Qed.

Lemma generate_checks_truthiness_only_witness :
  Content.generate "0b8f7a9e" (generate_body (VString "AI") (int 5) (VString "abc"))
    Workers.contentQueue
  = (generation_started "0b8f7a9e" Workers.contentQueue,
     snd (BullMQ.add Workers.contentQueue "generate"
            (VObject [("contentId", VString "0b8f7a9e");
                      ("topic", VString "AI");
                      ("keywords", int 5);
                      ("wordCount", VNum NaN)]))).
Proof.
  apply (proj1 (proj2 (proj2 (proj2 (proj2
           (generate_checks_truthiness_only "0b8f7a9e" Workers.contentQueue))))));
    reflexivity.
Defined.

End RouteProperties.

(* ===================================================================== *)
(** * Properties of the content-generation pipeline                       *)
(* ===================================================================== *)

Module ContentProperties.
Import JS Eff Examples Tactics Sessions ConversionProperties.

(** C2, as the specification words it, fails twice over.  A null reply is
    replaced by the text of the empty object, so the step returns the empty
    object; and a reply that is JSON of another shape is returned as it
    parsed.  Neither result has the title, description and tags of the
    declared shape, and a job whose SEO reply is null completes. *)
Lemma seo_step_returns_unshaped_values :
  LLMService.generateSEOMetadata (scripted_llm [None]) draft []
    = (Ok (VObject []), [ChatCreate (LLMService.seoRequest draft)]) /\
  LLMService.is_SEOMetadata (VObject []) = false /\
  LLMService.generateSEOMetadata
      (scripted_llm [Some (JSON.text "{'headline': 'AI', 'tags': 'none'}")]) draft []
    = (Ok (VObject [("headline", VString "AI"); ("tags", VString "none")]),
       [ChatCreate (LLMService.seoRequest draft)]) /\
  LLMService.is_SEOMetadata
    (VObject [("headline", VString "AI"); ("tags", VString "none")]) = false /\
  BullMQ.state (fst (Workers.runContentJob llm_blank_replies generation_job))
    = BullMQ.completed.
Proof. vm_compute. repeat split; reflexivity. Qed.

(** C2, amended: the SEO step throws when the completion call is rejected,
    when the completion has no choice, or when the reply is a non-empty
    text that [JSON.parse] rejects.  A null or empty reply is replaced by
    the text of the empty object and the step returns the empty object; a
    non-empty reply that parses is returned as parsed, whatever its
    shape. *)
Theorem seo_step_outcome (w : World) (content : string) (calls : list call) :
  let request := LLMService.seoRequest content in
  let after := calls ++ [ChatCreate request] in
  (forall e, openai w calls request = Throw e ->
             LLMService.generateSEOMetadata w content calls = (Throw e, after)) /\
  (openai w calls request = Ok [] ->
   exists e, LLMService.generateSEOMetadata w content calls = (Throw e, after)) /\
  (forall reply rest,
      openai w calls request = Ok (reply :: rest) ->
      reply = None \/ reply = Some "" ->
      LLMService.generateSEOMetadata w content calls = (Ok (VObject []), after)) /\
  (forall c reply rest,
      openai w calls request = Ok (Some (String c reply) :: rest) ->
      LLMService.generateSEOMetadata w content calls
        = (JSON.parse (String c reply), after)).
Proof.
  intros request after. subst request after.
  unfold LLMService.generateSEOMetadata, chat_completions_create, bind, lift.
  repeat split.
  - intros e H. rewrite H. reflexivity.
  - intros H. rewrite H. cbn. eexists. reflexivity.
  - intros reply rest H [-> | ->]; rewrite H; reflexivity.
  - intros c reply rest H. rewrite H. cbn.
    destruct (JSON.parse (String c reply)); reflexivity.
Qed.

Lemma seo_step_outcome_witness :
  LLMService.generateSEOMetadata (scripted_llm [Some "Sorry, I cannot help."]) draft []
    = (JSON.parse "Sorry, I cannot help.", [ChatCreate (LLMService.seoRequest draft)]) /\
  LLMService.generateSEOMetadata (scripted_llm [None]) draft []
    = (Ok (VObject []), [ChatCreate (LLMService.seoRequest draft)]).
Proof.
  split.
  - apply (proj2 (proj2 (proj2 (seo_step_outcome
             (scripted_llm [Some "Sorry, I cannot help."]) draft [])))
             "S"%char "orry, I cannot help." []).
    reflexivity.
  - apply (proj1 (proj2 (proj2 (seo_step_outcome (scripted_llm [None]) draft [])))
             None []); [reflexivity | left; reflexivity].
Defined.

(** Keywords that are no array make the draft step throw a [TypeError]
    before any remote call is made. *)
Lemma draft_step_needs_array_keywords
  (w : World) (topic keywords wordCount : value) :
  is_array keywords = false ->
  exists e,
    name e = "TypeError" /\
    LLMService.generateBlogPost w topic keywords wordCount [] = (Throw e, []).
Proof.
  intros Hk. unfold LLMService.generateBlogPost, bind, lift.
  destruct (ToString wordCount) as [count|e1] eqn:Ew.
  - destruct (ToString topic) as [subject|e2] eqn:Et.
    + destruct (call_join "keywords" keywords ", ") as [joined|e3] eqn:Ej.
      * destruct keywords; try discriminate.
      * exists e3. split; [|reflexivity]. exact (call_join_throws _ _ _ _ Ej).
    + exists e2. rewrite (ToString_throws _ _ Et). split; reflexivity.
  - exists e1. rewrite (ToString_throws _ _ Ew). split; reflexivity.
Qed.

(** A draft step that returned has printed the topic. *)
Lemma draft_step_prints_topic
  (w : World) (topic keywords wordCount : value) (tr tr1 : list call) (content : string) :
  LLMService.generateBlogPost w topic keywords wordCount tr = (Ok content, tr1) ->
  exists subject, ToString topic = Ok subject.
Proof.
  unfold LLMService.generateBlogPost, bind, lift.
  destruct (ToString wordCount); [|discriminate].
  destruct (ToString topic) as [subject|]; [|discriminate].
  intros _. exists subject. reflexivity.
Qed.

(** A draft step that threw although the topic prints. *)
Lemma draft_step_throws_as_topic
  (w : World) (topic keywords wordCount : value) (tr : list call) (e e0 : error) :
  fst (LLMService.generateBlogPost w topic keywords wordCount tr) = Throw e ->
  ToString topic = Throw e0 ->
  e = e0.
Proof.
  unfold LLMService.generateBlogPost, bind, lift. intros H Ht.
  destruct (ToString wordCount) as [count|e1] eqn:Ew.
  - rewrite Ht in H. cbn in H. injection H as <-. reflexivity.
  - cbn in H. injection H as <-.
    rewrite (ToString_throws _ _ Ew), (ToString_throws _ _ Ht). reflexivity.
Qed.

(** How the content processor goes through its first log line and its
    three steps once the job data was read. *)
Lemma contentProcessor_steps
  (w : World) (job : BullMQ.Job) (topic keywords wordCount contentId : value) :
  getMember (BullMQ.data job) "topic" = Ok topic ->
  getMember (BullMQ.data job) "keywords" = Ok keywords ->
  getMember (BullMQ.data job) "wordCount" = Ok wordCount ->
  getMember (BullMQ.data job) "contentId" = Ok contentId ->
  Workers.contentProcessor w job [] =
    match ToString topic with
    | Throw e => (Throw e, [])
    | Ok _ =>
        match LLMService.generateBlogPost w topic keywords wordCount [] with
        | (Throw e, tr) => (Throw e, tr)
        | (Ok content, tr1) =>
            match LLMService.generateSEOMetadata w content tr1 with
            | (Throw e, tr) => (Throw e, tr)
            | (Ok seo, tr2) =>
                match LLMService.generateFAQSchema w content tr2 with
                | (Throw e, tr) => (Throw e, tr)
                | (Ok faqs, tr3) =>
                    (Ok (VObject [("contentId", contentId);
                                  ("content", VString content);
                                  ("seo", seo);
                                  ("faqs", faqs);
                                  ("topic", topic)]), tr3)
                end
            end
        end
    end.
Proof.
  intros Ht Hk Hw Hc. unfold Workers.contentProcessor, bind at 1 2 3 4 5, lift.
  rewrite Ht, Hk, Hw, Hc.
  destruct (ToString topic) as [subject|e0] eqn:Et; [|reflexivity].
  unfold console_log, bind, ret.
  destruct (LLMService.generateBlogPost w topic keywords wordCount [])
    as [[content|e] tr1]; [|reflexivity].
  destruct (LLMService.generateSEOMetadata w content tr1) as [[seo|e] tr2]; [|reflexivity].
  destruct (LLMService.generateFAQSchema w content tr2) as [[faqs|e] tr3]; reflexivity.
Qed.

(** Whatever the processor does, the worker leaves the job completed, or
    failed with its stored result untouched. *)
Lemma process_completed_or_failed {S : Type}
  (processor : BullMQ.Job -> Comp S value) (job : BullMQ.Job) (s : S) :
  let job' := fst (BullMQ.processJob processor job s) in
  BullMQ.state job' = BullMQ.completed \/
  (BullMQ.state job' = BullMQ.failed /\
   BullMQ.returnvalue job' = BullMQ.returnvalue job).
Proof.
  unfold BullMQ.processJob. destruct (processor _ s) as [[v|e] s']; cbn; auto.
Qed.

(** C5: in a generation job, a throw of the draft step, of the SEO step or
    of the FAQ step fails the job, with the error's message as the failure
    reason, and leaves the job's result as it was: nothing of the steps
    that did succeed is stored.  A job is only ever left completed or
    failed with no result stored. *)
Theorem generation_step_failure_fails_job
  (w : World) (job : BullMQ.Job) (topic keywords wordCount contentId : value) :
  getMember (BullMQ.data job) "topic" = Ok topic ->
  getMember (BullMQ.data job) "keywords" = Ok keywords ->
  getMember (BullMQ.data job) "wordCount" = Ok wordCount ->
  getMember (BullMQ.data job) "contentId" = Ok contentId ->
  let job' := fst (Workers.runContentJob w job) in
  let failed_with (e : error) :=
    BullMQ.state job' = BullMQ.failed /\
    BullMQ.failedReason job' = VString (message e) /\
    BullMQ.returnvalue job' = BullMQ.returnvalue job in
  (forall e,
      fst (LLMService.generateBlogPost w topic keywords wordCount []) = Throw e ->
      failed_with e) /\
  (forall content tr1 e,
      LLMService.generateBlogPost w topic keywords wordCount [] = (Ok content, tr1) ->
      fst (LLMService.generateSEOMetadata w content tr1) = Throw e ->
      failed_with e) /\
  (forall content tr1 seo tr2 e,
      LLMService.generateBlogPost w topic keywords wordCount [] = (Ok content, tr1) ->
      LLMService.generateSEOMetadata w content tr1 = (Ok seo, tr2) ->
      fst (LLMService.generateFAQSchema w content tr2) = Throw e ->
      failed_with e) /\
  (BullMQ.state job' = BullMQ.completed \/
   (BullMQ.state job' = BullMQ.failed /\
    BullMQ.returnvalue job' = BullMQ.returnvalue job)).
Proof.
  intros Ht Hk Hw Hc job' failed_with. subst job' failed_with.
  split; [|split; [|split]].
  - intros e H. run_worker.
    rewrite (contentProcessor_steps w (BullMQ.mkJob _ _ _ _ _ _ _ _)
               topic keywords wordCount contentId Ht Hk Hw Hc).
    destruct (ToString topic) as [subject|e0] eqn:Et.
    + destruct (LLMService.generateBlogPost w topic keywords wordCount [])
        as [[content|e1] tr1]; cbn in H; [discriminate|].
      injection H as ->. cbn. auto.
    + rewrite (draft_step_throws_as_topic _ _ _ _ _ _ _ H Et). cbn. auto.
  - intros content tr1 e H1 H2. run_worker.
    rewrite (contentProcessor_steps w (BullMQ.mkJob _ _ _ _ _ _ _ _)
               topic keywords wordCount contentId Ht Hk Hw Hc).
    destruct (draft_step_prints_topic _ _ _ _ _ _ _ H1) as [subject ->].
    rewrite H1.
    destruct (LLMService.generateSEOMetadata w content tr1)
      as [[seo|e1] tr2]; cbn in H2; [discriminate|].
    injection H2 as ->. cbn. auto.
  - intros content tr1 seo tr2 e H1 H2 H3. run_worker.
    rewrite (contentProcessor_steps w (BullMQ.mkJob _ _ _ _ _ _ _ _)
               topic keywords wordCount contentId Ht Hk Hw Hc).
    destruct (draft_step_prints_topic _ _ _ _ _ _ _ H1) as [subject ->].
    rewrite H1, H2.
    destruct (LLMService.generateFAQSchema w content tr2)
      as [[faqs|e1] tr3]; cbn in H3; [discriminate|].
    injection H3 as ->. cbn. auto.
  - apply process_completed_or_failed.
Qed.

Lemma generation_step_failure_fails_job_witness :
  exists e,
    JSON.parse "Sorry, I cannot help." = Throw e /\
    BullMQ.state (fst (Workers.runContentJob llm_unparseable_seo generation_job))
      = BullMQ.failed /\
    BullMQ.failedReason (fst (Workers.runContentJob llm_unparseable_seo generation_job))
      = VString (message e) /\
    BullMQ.returnvalue (fst (Workers.runContentJob llm_unparseable_seo generation_job))
      = VNull.
Proof.
  eexists. split; [reflexivity|].
  eapply (proj1 (proj2 (generation_step_failure_fails_job
            llm_unparseable_seo generation_job
            (VString "AI in Healthcare")
            (VArray [VString "machine learning"; VString "patient care"])
            (int 1500) (VString "0b8f7a9e-3c1d-4e5f-9a6b-7c8d9e0f1a2b")
            eq_refl eq_refl eq_refl eq_refl))
          draft _ _); reflexivity.
Defined.

(** C4, as the specification words it, fails: for the README's request,
    an LLM that answers the SEO call with null and the FAQ call with one
    blank entry leaves the job completed, with a result whose [seo] is the
    empty object (it has no tags at all) and whose [faqs] holds a pair with
    an empty question and an empty answer. *)
Lemma completed_result_without_tags :
  BullMQ.state (fst (Workers.runContentJob llm_blank_replies generation_job))
    = BullMQ.completed /\
  getMember (BullMQ.returnvalue (fst (Workers.runContentJob llm_blank_replies generation_job)))
            "seo" = Ok (VObject []) /\
  getMember (VObject []) "tags" = Ok VUndefined /\
  getMember (BullMQ.returnvalue (fst (Workers.runContentJob llm_blank_replies generation_job)))
            "faqs"
    = Ok (VArray [VObject [("question", VString ""); ("answer", VString "")]]).
Proof. vm_compute. repeat split; reflexivity. Qed.

(** C4, amended: a generation job that reaches the completed state made
    exactly three completion calls: the draft request, then the SEO request
    and the FAQ request, both built from the draft.  Its stored result is
    built from [contentId], [content], [seo], [faqs] and [topic], where
    [content] is the draft, the reply to the first call (the empty string
    for a null reply), [seo] is what the reply to the SEO call parsed to
    (the empty object for a null or empty reply) and [faqs] is the [faqs]
    member of what the reply to the FAQ call parsed to, or the empty array
    when that member is missing or falsy.  Nothing is checked about the
    tags or about the entries of [faqs]. *)
Theorem completed_generation_result
  (w : World) (job job' : BullMQ.Job) (calls : list call) :
  Workers.runContentJob w job = (job', calls) ->
  BullMQ.state job' = BullMQ.completed ->
  exists topic contentId subject count joined,
    getMember (BullMQ.data job) "topic" = Ok topic /\
    getMember (BullMQ.data job) "contentId" = Ok contentId /\
    exists reply1 rest1 reply2 rest2 reply3 rest3 seo parsed faqs,
      let first := ChatCreate (LLMService.blogRequest subject count joined) in
      let content := string_or reply1 "" in
      calls = [first; ChatCreate (LLMService.seoRequest content);
               ChatCreate (LLMService.faqRequest content)] /\
      openai w [] (LLMService.blogRequest subject count joined)
        = Ok (reply1 :: rest1) /\
      openai w [first] (LLMService.seoRequest content) = Ok (reply2 :: rest2) /\
      JSON.parse (string_or reply2 "{}") = Ok seo /\
      openai w [first; ChatCreate (LLMService.seoRequest content)]
        (LLMService.faqRequest content) = Ok (reply3 :: rest3) /\
      JSON.parse (string_or reply3 (JSON.text "{'faqs': []}")) = Ok parsed /\
      getMember parsed "faqs" = Ok faqs /\
      BullMQ.returnvalue job' =
        JSON.roundtrip
          (VObject [("contentId", contentId);
                    ("content", VString content);
                    ("seo", seo);
                    ("faqs", or_else faqs (VArray []));
                    ("topic", topic)]).
Proof.
  intros Hrun Hdone. revert Hrun. run_processor. intros Hrun.
  repeat (next_step Hrun;
          try (injection Hrun as <- <-; cbn in Hdone; discriminate)).
  injection Hrun as <- <-.
  eexists _, _, _, _, _.
  repeat (split; [first [reflexivity | eassumption]|]).
  eexists _, _, _, _, _, _, _, _, _. cbn zeta. repeat split; eauto.
Qed.

Lemma completed_generation_result_witness :
  exists topic contentId subject count joined,
    getMember (BullMQ.data generation_job) "topic" = Ok topic /\
    getMember (BullMQ.data generation_job) "contentId" = Ok contentId /\
    exists reply1 rest1 reply2 rest2 reply3 rest3 seo parsed faqs,
      let first := ChatCreate (LLMService.blogRequest subject count joined) in
      let content := string_or reply1 "" in
      snd (Workers.runContentJob llm_blank_replies generation_job)
        = [first; ChatCreate (LLMService.seoRequest content);
           ChatCreate (LLMService.faqRequest content)] /\
      openai llm_blank_replies [] (LLMService.blogRequest subject count joined)
        = Ok (reply1 :: rest1) /\
      openai llm_blank_replies [first] (LLMService.seoRequest content)
        = Ok (reply2 :: rest2) /\
      JSON.parse (string_or reply2 "{}") = Ok seo /\
      openai llm_blank_replies [first; ChatCreate (LLMService.seoRequest content)]
        (LLMService.faqRequest content) = Ok (reply3 :: rest3) /\
      JSON.parse (string_or reply3 (JSON.text "{'faqs': []}")) = Ok parsed /\
      getMember parsed "faqs" = Ok faqs /\
      BullMQ.returnvalue (fst (Workers.runContentJob llm_blank_replies generation_job)) =
        JSON.roundtrip
          (VObject [("contentId", contentId);
                    ("content", VString content);
                    ("seo", seo);
                    ("faqs", or_else faqs (VArray []));
                    ("topic", topic)]).
Proof.
  apply (completed_generation_result llm_blank_replies generation_job
           (fst (Workers.runContentJob llm_blank_replies generation_job))
           (snd (Workers.runContentJob llm_blank_replies generation_job)));
    reflexivity.
Defined.

End ContentProperties.

(* ===================================================================== *)
(** * Properties of the worker pool                                       *)
(* ===================================================================== *)

Module PoolProperties.
Import BullMQ Pool.
Local Open Scope N_scope.

Section Counting.
Context {A : Type}.

Lemma count_app (p : A -> bool) (l1 l2 : list A) :
  count p (l1 ++ l2) = (count p l1 + count p l2)%nat.
Proof.
  induction l1 as [|x l1 IH]; cbn; [reflexivity|].
  destruct (p x); cbn; rewrite IH; reflexivity.
Qed.

Lemma count_map_le (p : A -> bool) (f : A -> A) (l : list A) :
  (forall x, p (f x) = true -> p x = true) ->
  (count p (map f l) <= count p l)%nat.
Proof.
  intros Hf. induction l as [|x l IH]; cbn; [lia|].
  destruct (p (f x)) eqn:E.
  - rewrite (Hf x E). lia.
  - destruct (p x); lia.
Qed.

Lemma count_le_of_imp (p q : A -> bool) (l : list A) :
  (forall x, p x = true -> q x = true) ->
  (count p l <= count q l)%nat.
Proof.
  intros Hpq. induction l as [|x l IH]; cbn; [lia|].
  destruct (p x) eqn:E.
  - rewrite (Hpq x E). lia.
  - destruct (q x); lia.
Qed.
End Counting.

Lemma claim_first_active (now : N) (q q' : list PJob) :
  claim_first now q = Some q' ->
  count is_active q' = Datatypes.S (count is_active q).
Proof.
  revert q'. induction q as [|j r IH]; intros q' H; cbn in H; [discriminate|].
  destruct (eligible now j) eqn:E.
  - injection H as <-. unfold eligible in E. apply andb_prop in E as [Hw _].
    cbn. unfold is_active, is_waiting in *. cbn.
    destruct (jstate j); try discriminate. reflexivity.
  - destruct (claim_first now r) as [r'|]; cbn in H; [|discriminate].
    injection H as <-. cbn. rewrite (IH r' eq_refl).
    destruct (is_active j); reflexivity.
Qed.

Lemma finish_ok_active (i : N) (j : PJob) :
  is_active (finish_ok i j) = true -> is_active j = true.
Proof.
  unfold finish_ok. destruct ((jid j =? i) && is_active j) eqn:E; [|auto].
  cbn. discriminate.
Qed.

Lemma finish_err_active (cfg : Config) (now i : N) (j : PJob) :
  is_active (finish_err cfg now i j) = true -> is_active j = true.
Proof.
  unfold finish_err. destruct ((jid j =? i) && is_active j) eqn:E; [|auto].
  destruct (attempts j <? maxAttempts cfg); cbn; discriminate.
Qed.

(** A move of the pool keeps the number of active jobs within the
    concurrency of its options. *)
Lemma step_active_bounded (cfg : Config) (s : State) (ev : event) :
  N.of_nat (active_count s) <= concurrency (options cfg) ->
  N.of_nat (active_count (step cfg s ev)) <= concurrency (options cfg).
Proof.
  intros H. destruct ev as [|dt| |i|i]; unfold step, active_count in *; cbn [queue].
  - rewrite count_app. cbn. lia.
  - exact H.
  - destruct (slot_free cfg s) eqn:Hs; cbn [andb]; [|exact H].
    destruct (budget_left cfg s); [|exact H].
    destruct (claim_first (clock s) (queue s)) as [q'|] eqn:Hc; [|exact H].
    cbn [queue]. rewrite (claim_first_active _ _ _ Hc).
    unfold slot_free, active_count in Hs. apply N.ltb_lt in Hs. lia.
  - pose proof (count_map_le is_active (finish_ok i) (queue s) (finish_ok_active i)). lia.
  - pose proof (count_map_le is_active (finish_err cfg (clock s) i) (queue s)
                  (finish_err_active cfg (clock s) i)). lia.
Qed.

Lemma run_active_bounded (cfg : Config) (evs : list event) :
  N.of_nat (active_count (run cfg evs)) <= concurrency (options cfg).
Proof.
  unfold run.
  assert (H : forall s, N.of_nat (active_count s) <= concurrency (options cfg) ->
                        N.of_nat (active_count (fold_left (step cfg) evs s))
                        <= concurrency (options cfg)).
  { induction evs as [|ev evs IH]; intros s Hs; cbn; [exact Hs|].
    apply IH, step_active_bounded, Hs. }
  apply H. cbn. lia.
Qed.

(** C8: whatever is submitted, claimed, finished or failed, and however
    time passes, the pool of the content-generation worker never has more
    than 2 active jobs and the pool of the publishing worker never more
    than 1. *)
Theorem active_jobs_bounded (attempts delay cap : N) (evs : list event) :
  N.of_nat (active_count (run (contentPool attempts delay cap) evs)) <= 2 /\
  N.of_nat (active_count (run (publishPool attempts delay cap) evs)) <= 1.
Proof.
  split.
  - apply (run_active_bounded (contentPool attempts delay cap)).
  - apply (run_active_bounded (publishPool attempts delay cap)).
Qed.

(** A move of a rate-limited pool keeps every window of the limiter's
    length within the limiter's maximum. *)
Lemma step_window_bounded (cfg : Config) (max dur : N) (s : State) (ev : event) :
  limiter (options cfg) = Some (max, dur) ->
  (forall t, N.of_nat (starts_in t dur s) <= max) ->
  forall t, N.of_nat (starts_in t dur (step cfg s ev)) <= max.
Proof.
  intros Hl H t. destruct ev as [|dt| |i|i]; unfold step; try apply H.
  destruct (slot_free cfg s); cbn [andb]; [|apply H].
  destruct (budget_left cfg s) eqn:Hb; [|apply H].
  destruct (claim_first (clock s) (queue s)) as [q'|]; [|apply H].
  unfold budget_left in Hb. rewrite Hl in Hb. apply N.ltb_lt in Hb.
  unfold starts_in. cbn [starts count].
  destruct ((t <=? clock s) && (clock s <? t + dur)) eqn:Hin; [|apply H].
  apply andb_prop in Hin as [_ Hlt]. apply N.ltb_lt in Hlt.
  assert (Hle : (count (fun x => ((t <=? x) && (x <? t + dur))%N) (starts s)
                 <= recent_starts dur s)%nat).
  { apply count_le_of_imp. intros x Hx. apply andb_prop in Hx as [Hx1 Hx2].
    apply N.leb_le in Hx1. apply N.ltb_lt. lia. }
  lia.
Qed.

Lemma run_window_bounded (cfg : Config) (max dur : N) (evs : list event) :
  limiter (options cfg) = Some (max, dur) ->
  forall t, N.of_nat (starts_in t dur (run cfg evs)) <= max.
Proof.
  intros Hl. unfold run.
  assert (H : forall s, (forall t, N.of_nat (starts_in t dur s) <= max) ->
                        forall t, N.of_nat (starts_in t dur (fold_left (step cfg) evs s))
                                  <= max).
  { induction evs as [|ev evs IH]; intros s Hs; cbn; [exact Hs|].
    apply IH. intros t. apply (step_window_bounded cfg max dur s ev Hl Hs). }
  apply H. intros t. cbn. lia.
Qed.

(** While the window budget is used up, no move starts a task, and a
    waiting job stays in the queue as it is. *)
Lemma step_without_budget (cfg : Config) (s : State) (ev : event) (j : PJob) :
  budget_left cfg s = false ->
  In j (queue s) -> jstate j = waiting ->
  In j (queue (step cfg s ev)) /\ starts (step cfg s ev) = starts s.
Proof.
  intros Hb Hin Hw. destruct ev as [|dt| |i|i]; unfold step; cbn [queue starts].
  - split; [apply in_or_app; left; exact Hin | reflexivity].
  - split; [exact Hin | reflexivity].
  - rewrite Hb, andb_false_r. split; [exact Hin | reflexivity].
  - split; [|reflexivity].
    replace j with (finish_ok i j); [apply in_map, Hin|].
    unfold finish_ok, is_active. rewrite Hw, andb_false_r. reflexivity.
  - split; [|reflexivity].
    replace j with (finish_err cfg (clock s) i j); [apply in_map, Hin|].
    unfold finish_err, is_active. rewrite Hw, andb_false_r. reflexivity.
Qed.

(** C9: in the pool of the content-generation worker, whatever happens,
    no window of 60000 milliseconds holds more than 10 task starts; and
    while the budget of the current window is used up, no move of the pool
    starts a task and every waiting job stays in the queue, still
    waiting. *)
Theorem content_rate_limit (attempts delay cap : N) (evs : list event) :
  (forall t,
      N.of_nat (starts_in t 60000 (run (contentPool attempts delay cap) evs)) <= 10) /\
  (forall ev j,
      budget_left (contentPool attempts delay cap)
                  (run (contentPool attempts delay cap) evs) = false ->
      In j (queue (run (contentPool attempts delay cap) evs)) ->
      jstate j = waiting ->
      In j (queue (step (contentPool attempts delay cap)
                        (run (contentPool attempts delay cap) evs) ev)) /\
      starts (step (contentPool attempts delay cap)
                   (run (contentPool attempts delay cap) evs) ev)
        = starts (run (contentPool attempts delay cap) evs)).
Proof.
  split.
  - apply (run_window_bounded (contentPool attempts delay cap) 10 60000 evs).
    reflexivity.
  - intros ev j. apply step_without_budget.
Qed.

Lemma content_rate_limit_witness :
  In (mkPJob 10 waiting 0 0)
     (queue (step (contentPool 3 1000 30000)
                  (run (contentPool 3 1000 30000) Examples.burst) Claim)) /\
  starts (step (contentPool 3 1000 30000)
               (run (contentPool 3 1000 30000) Examples.burst) Claim)
    = starts (run (contentPool 3 1000 30000) Examples.burst).
Proof.
  apply (proj2 (content_rate_limit 3 1000 30000 Examples.burst) Claim
               (mkPJob 10 waiting 0 0)).
  - vm_compute. reflexivity.
  - vm_compute. do 10 right. left. reflexivity.
  - reflexivity.
Defined.

End PoolProperties.

(* ===================================================================== *)
(** * Properties of persistence                                         *)
(* ===================================================================== *)

Module PersistenceProperties.
Import JS Eff.

Lemma lookup_member_absent (k : string) (ms : list (string * value)) :
  ~ In k (map fst ms) -> lookup_member k ms = VUndefined.
Proof.
  induction ms as [|[k' v] r IH]; cbn; intros Hn; [reflexivity|].
  destruct (String.eqb_spec k k') as [->|Hne]; [tauto|]. apply IH. tauto.
Qed.

(** Reading a property of a persisted object gives the persisted form of
    the property: for an object whose keys are distinct, [JSON.roundtrip]
    and the lookup of a name commute (a property that was [undefined] is
    dropped and reads as [undefined] again). *)
Lemma roundtrip_member (ms : list (string * value)) (k : string) :
  List.NoDup (map fst ms) ->
  getMember (JSON.roundtrip (VObject ms)) k
    = Ok (JSON.roundtrip (lookup_member k ms)).
Proof.
  intros Hnd. induction ms as [|[k' v] r IH]; [reflexivity|].
  cbn in Hnd. apply NoDup_cons_iff in Hnd as [Hnotin Hnd]. specialize (IH Hnd).
  cbn in IH. injection IH as IH.
  destruct (String.eqb_spec k k') as [->|Hne].
  - cbn. rewrite String.eqb_refl.
    destruct v as [| | |[|m e]| | |]; cbn; rewrite ?String.eqb_refl; try reflexivity.
    rewrite IH, (lookup_member_absent k' r Hnotin). reflexivity.
  - apply String.eqb_neq in Hne.
    destruct v as [| | |[|m e]| | |]; cbn; rewrite Hne; cbn; rewrite ?IH;
      reflexivity.
Qed.

(** Persistence keeps truthiness, except that of the infinities, which are
    stored as [null]. *)
Lemma truthy_roundtrip (v : value) :
  Sessions.is_infinite v = false -> truthy (JSON.roundtrip v) = truthy v.
Proof.
  destruct v as [| | |[|m e]| | |]; try reflexivity.
  cbn [Sessions.is_infinite JSON.roundtrip]. intros ->. reflexivity.
Qed.

Lemma roundtrip_defined (v : value) : v <> VUndefined -> JSON.roundtrip v <> VUndefined.
Proof.
  destruct v as [| | |[|m e]| | |]; cbn [JSON.roundtrip]; try congruence.
  destruct (rounds_to_infinity m e); congruence.
Qed.

Lemma roundtrip_is_array (v : value) :
  Sessions.is_array (JSON.roundtrip v) = Sessions.is_array v.
Proof.
  destruct v as [| | |[|m e]| | |]; try reflexivity.
  cbn [JSON.roundtrip]. destruct (rounds_to_infinity m e); reflexivity.
Qed.

(** [f || []] is never falsy. *)
Lemma or_else_array_truthy (f : value) : truthy (or_else f (VArray [])) = true.
Proof. unfold or_else. destruct (truthy f) eqn:Hf; [exact Hf | reflexivity]. Qed.

(** [JSON.parse] never answers [undefined]. *)
Lemma deliver_defined (v : value) (st : list JSON.frame) m' st' :
  v <> VUndefined ->
  JSON.deliver v st = Some (m', st') ->
  forall u, m' = JSON.MDone u -> u <> VUndefined.
Proof.
  intros Hv H u ->. destruct st as [|[acc|acc|acc k] r]; cbn in H; try discriminate;
    injection H as H _; congruence.
Qed.

Lemma parse_step_defined m st t m' st' :
  JSON.parse_step m st t = Some (m', st') ->
  forall u, m' = JSON.MDone u -> u <> VUndefined.
Proof.
  intros H.
  assert (Hb : forall t st m' st', JSON.begin_value t st = Some (m', st') ->
                 forall u, m' = JSON.MDone u -> u <> VUndefined).
  { clear. intros t st m' st' H. destruct t; cbn in H;
      try discriminate;
      try (injection H as <- _; intros u Hu; discriminate);
      eapply deliver_defined; try eassumption; discriminate. }
  unfold JSON.parse_step in H.
  destruct m; destruct t; try destruct st as [|[acc|acc|acc k] r];
    try discriminate;
    try (eapply Hb; eassumption);
    try (eapply deliver_defined; try eassumption; discriminate);
    try (injection H as <- _; intros u Hu; discriminate).
Qed.

Lemma parse_tokens_defined (ts : list JSON.token) m st v :
  (forall u, m = JSON.MDone u -> u <> VUndefined) ->
  JSON.parse_tokens m st ts = Some v -> v <> VUndefined.
Proof.
  revert m st. induction ts as [|t r IH]; intros m st Hm H; cbn in H.
  - destruct m; try discriminate. injection H as <-. apply Hm. reflexivity.
  - destruct (JSON.parse_step m st t) as [[m' st']|] eqn:E; [|discriminate].
    eapply IH; [|exact H]. eapply parse_step_defined. exact E.
Qed.

Lemma parse_defined (text : string) (v : value) :
  JSON.parse text = Ok v -> v <> VUndefined.
Proof.
  unfold JSON.parse. destruct (JSON.lex _ _ _) as [ts|]; [|discriminate].
  destruct (JSON.parse_tokens _ _ ts) as [u|] eqn:E; [|discriminate].
  intros H. injection H as <-. eapply parse_tokens_defined; [|exact E]. discriminate.
Qed.

End PersistenceProperties.

(* ===================================================================== *)
(** * Properties of requests served in sequence                         *)
(* ===================================================================== *)

Module SessionProperties.
Import JS Eff Examples MoreExamples Routes Views Tactics Sessions.
Import ConversionProperties PersistenceProperties.

(** Decimal numerals of different numbers differ. *)
Lemma digits_inj (n m : N) : digits n = digits m -> n = m.
Proof.
  unfold digits. intros H. apply DecimalN.Unsigned.to_uint_inj.
  assert (Hnn : forall k, N.to_uint k <> Decimal.Nil).
  { intros [|p]; [discriminate|]. apply DecimalPos.Unsigned.to_uint_nonnil. }
  pose proof (NilZero.usu _ (Hnn n)) as Hn. pose proof (NilZero.usu _ (Hnn m)) as Hm.
  rewrite H in Hn. congruence.
Qed.

Lemma new_queue_ids_issued (nm : string) : ids_issued (BullMQ.Queue_new nm).
Proof. intros jid j H. unfold BullMQ.getJob in H. cbn in H. discriminate. Qed.

Lemma add_ids_issued (q : BullMQ.Queue) (nm : string) (d : value) :
  ids_issued q -> ids_issued (snd (BullMQ.add q nm d)).
Proof.
  intros Hq jid j. unfold BullMQ.add, BullMQ.getJob. cbn.
  rewrite lookup_insert. case_decide as Hid.
  - intros H. injection H as <-. exists (BullMQ.counter q + 1)%N. cbn.
    split; [lia|]. split; congruence.
  - intros H. destruct (Hq jid j H) as (n & Hn & Hjid & Hj).
    exists n. split; [lia|]. split; assumption.
Qed.

Lemma add_keeps_jobs (q : BullMQ.Queue) (nm : string) (d : value) jid j :
  ids_issued q ->
  BullMQ.getJob q jid = Some j ->
  BullMQ.getJob (snd (BullMQ.add q nm d)) jid = Some j.
Proof.
  intros Hq H. destruct (Hq jid j H) as (n & Hn & -> & _).
  unfold BullMQ.add, BullMQ.getJob in *. cbn. rewrite lookup_insert_ne; [exact H|].
  intros Heq. apply digits_inj in Heq. lia.
Qed.

(** What [POST /api/publish] does with each kind of body. *)
Lemma post_by_body (body : value) (q : BullMQ.Queue) :
  Publish.post body q =
    match body with
    | VUndefined | VNull => (server_error "Failed to publish content", q)
    | VObject ms =>
        if truthy (lookup_member "content" ms) && truthy (lookup_member "seo" ms)
        then (publishing_started q, snd (BullMQ.add q "publish" (publish_job_data ms)))
        else (publish_missing_fields, q)
    | _ => (publish_missing_fields, q)
    end.
Proof.
  destruct body as [| | | | | |ms]; try reflexivity. run_handler.
  destruct (truthy (lookup_member "content" ms)); cbn [negb orb andb]; [|reflexivity].
  destruct (truthy (lookup_member "seo" ms)); reflexivity.
Qed.

(** What [POST /api/content/generate] does with each kind of body. *)
Lemma generate_by_body (uuid : string) (body : value) (q : BullMQ.Queue) :
  Content.generate uuid body q =
    match body with
    | VUndefined | VNull => (server_error "Failed to start content generation", q)
    | VObject ms =>
        if truthy (lookup_member "topic" ms) && truthy (lookup_member "keywords" ms)
           && truthy (lookup_member "wordCount" ms)
        then
          match parseInt (lookup_member "wordCount" ms) with
          | Ok count =>
              (generation_started uuid q,
               snd (BullMQ.add q "generate"
                      (generate_job_data uuid (lookup_member "topic" ms)
                         (lookup_member "keywords" ms) count)))
          | Throw _ => (server_error "Failed to start content generation", q)
          end
        else (missing_fields, q)
    | _ => (missing_fields, q)
    end.
Proof.
  destruct body as [| | | | | |ms]; try reflexivity.
  apply RouteProperties.generate_by_cases.
Qed.

(** A submission without a usable body never reaches a queue, but the two
    ways of having none are answered differently.  With no body at all
    ([undefined] or [null]) reading the first field throws and the handler
    answers 500; a body that is a string, a number, a boolean or an array
    has none of the fields and is answered 400, missing fields. *)
Theorem submission_without_fields (uuid : string) (body : value) (q : BullMQ.Queue) :
  (is_nullish body = true ->
   Publish.post body q = (server_error "Failed to publish content", q) /\
   Content.generate uuid body q = (server_error "Failed to start content generation", q)) /\
  (is_nullish body = false -> is_object body = false ->
   Publish.post body q = (publish_missing_fields, q) /\
   Content.generate uuid body q = (missing_fields, q)).
Proof.
  rewrite post_by_body, generate_by_body.
  split; intros H; [|intros H']; destruct body; try discriminate; split; reflexivity.
Qed.

Lemma submission_without_fields_witness :
  (Publish.post VUndefined Workers.publishQueue
     = (server_error "Failed to publish content", Workers.publishQueue) /\
   Content.generate "0b8f7a9e" VUndefined Workers.publishQueue
     = (server_error "Failed to start content generation", Workers.publishQueue)) /\
  (Publish.post (VArray [VString "AI"]) Workers.publishQueue
     = (publish_missing_fields, Workers.publishQueue) /\
   Content.generate "0b8f7a9e" (VArray [VString "AI"]) Workers.publishQueue
     = (missing_fields, Workers.publishQueue)).
Proof.
  split.
  - apply (proj1 (submission_without_fields "0b8f7a9e" VUndefined Workers.publishQueue)).
    reflexivity.
  - apply (proj2 (submission_without_fields "0b8f7a9e" (VArray [VString "AI"])
                    Workers.publishQueue)); reflexivity.
Defined.

(** A request either leaves the queue as it is or adds one job to it. *)
Lemma servePublish_effect (q : BullMQ.Queue) (r : request) :
  snd (servePublish q r) = q \/
  exists d, snd (servePublish q r) = snd (BullMQ.add q "publish" d).
Proof.
  destruct r as [uuid body|jobId]; cbn [servePublish].
  - rewrite post_by_body.
    destruct body as [| | | | | |ms]; auto.
    destruct (_ && _); eauto.
  - left. run_handler. destruct (BullMQ.getJob q jobId); reflexivity.
Qed.

Lemma serveContent_effect (q : BullMQ.Queue) (r : request) :
  snd (serveContent q r) = q \/
  exists d, snd (serveContent q r) = snd (BullMQ.add q "generate" d).
Proof.
  destruct r as [uuid body|jobId]; cbn [serveContent].
  - rewrite generate_by_body.
    destruct body as [| | | | | |ms]; auto.
    destruct (_ && _); [|auto].
    destruct (parseInt _); eauto.
  - left. run_handler. destruct (BullMQ.getJob q jobId); reflexivity.
Qed.

Lemma after_ids_issued serve nm (q : BullMQ.Queue) (rs : list request) :
  (forall q r, snd (serve q r) = q \/
               exists d, snd (serve q r) = snd (BullMQ.add q nm d)) ->
  ids_issued q -> ids_issued (after serve q rs).
Proof.
  intros Hserve. revert q. induction rs as [|r rs IH]; intros q Hq; cbn; [exact Hq|].
  apply IH. destruct (Hserve q r) as [-> | [d ->]]; [exact Hq|].
  apply add_ids_issued, Hq.
Qed.

(** Whatever requests the two routers served since the queues were
    created, serving one more request, of either kind, leaves every job
    that is in a queue where it is and as it is: a submission never
    overwrites an earlier job, because each gets an id of its own. *)
Theorem requests_keep_jobs (rs : list request) (r : request)
  (jid : string) (job : BullMQ.Job) :
  (BullMQ.getJob (after servePublish Workers.publishQueue rs) jid = Some job ->
   BullMQ.getJob (snd (servePublish (after servePublish Workers.publishQueue rs) r)) jid
     = Some job) /\
  (BullMQ.getJob (after serveContent Workers.contentQueue rs) jid = Some job ->
   BullMQ.getJob (snd (serveContent (after serveContent Workers.contentQueue rs) r)) jid
     = Some job).
Proof.
  split; intros H.
  - destruct (servePublish_effect (after servePublish Workers.publishQueue rs) r)
      as [-> | [d ->]]; [exact H|].
    apply add_keeps_jobs; [|exact H].
    apply (after_ids_issued servePublish "publish"); [apply servePublish_effect|].
    apply new_queue_ids_issued.
  - destruct (serveContent_effect (after serveContent Workers.contentQueue rs) r)
      as [-> | [d ->]]; [exact H|].
    apply add_keeps_jobs; [|exact H].
    apply (after_ids_issued serveContent "generate"); [apply serveContent_effect|].
    apply new_queue_ids_issued.
Qed.

Lemma requests_keep_jobs_witness :
  BullMQ.getJob
    (snd (servePublish
            (after servePublish Workers.publishQueue
               [Submit "" (publish_data (VString "publish") VUndefined)])
            (Submit "" (publish_data (VString "private") (VString iso_2030)))))
    "1" = Some immediate_job.
Proof.
  apply (proj1 (requests_keep_jobs
                  [Submit "" (publish_data (VString "publish") VUndefined)]
                  (Submit "" (publish_data (VString "private") (VString iso_2030)))
                  "1" immediate_job)).
  vm_compute. reflexivity.
Defined.

Lemma getJob_added (q : BullMQ.Queue) (nm : string) (d : value) :
  BullMQ.getJob (snd (BullMQ.add q nm d)) (digits (BullMQ.counter q + 1))
    = Some (fst (BullMQ.add q nm d)).
Proof. unfold BullMQ.getJob, BullMQ.add. cbn. apply lookup_insert_eq. Qed.

Lemma or_else_draft_truthy (status : value) :
  truthy (or_else status (VString "draft")) = true.
Proof. unfold or_else. destruct (truthy status) eqn:H; [exact H | reflexivity]. Qed.

(** Every job the publish route enqueues for a body whose content, seo
    and status are no infinite numbers carries a truthy content, a truthy
    seo and a truthy status once stored, so the worker's own fallback to
    the status draft does not change the status of such a job; a schedule
    date is stored only if one was sent.  An infinite status (the JSON
    numeral 1e999) passes as well, and is stored as [null]. *)
Theorem enqueued_publish_job_fields (ms : list (string * value)) (q : BullMQ.Queue) :
  truthy (lookup_member "content" ms) && truthy (lookup_member "seo" ms) = true ->
  exists job,
    BullMQ.getJob (snd (Publish.post (VObject ms) q)) (digits (BullMQ.counter q + 1))
      = Some job /\
    BullMQ.state job = BullMQ.waiting /\
    getMember (BullMQ.data job) "scheduleDate"
      = Ok (JSON.roundtrip (lookup_member "scheduleDate" ms)) /\
    (is_infinite (lookup_member "content" ms) = false ->
     exists content,
       getMember (BullMQ.data job) "content" = Ok content /\ truthy content = true) /\
    (is_infinite (lookup_member "seo" ms) = false ->
     exists seo,
       getMember (BullMQ.data job) "seo" = Ok seo /\ truthy seo = true) /\
    (is_infinite (lookup_member "status" ms) = false ->
     exists status,
       getMember (BullMQ.data job) "status" = Ok status /\ truthy status = true /\
       or_else status (VString "draft") = status) /\
    (is_infinite (lookup_member "status" ms) = true ->
     getMember (BullMQ.data job) "status" = Ok VNull).
Proof.
  intros Hacc. rewrite post_by_body, Hacc. cbn [snd]. rewrite getJob_added.
  apply andb_prop in Hacc as [Hc Hs].
  assert (Hnd : List.NoDup (map fst
            [("content", lookup_member "content" ms);
             ("seo", lookup_member "seo" ms);
             ("status", or_else (lookup_member "status" ms) (VString "draft"));
             ("scheduleDate", lookup_member "scheduleDate" ms)])).
  { cbn. repeat constructor; cbn; intuition discriminate. }
  exists (fst (BullMQ.add q "publish" (publish_job_data ms))).
  unfold BullMQ.add, publish_job_data. cbn [fst BullMQ.data BullMQ.state].
  rewrite 4!(roundtrip_member _ _ Hnd).
  cbn [lookup_member String.eqb Ascii.eqb Bool.eqb].
  repeat (split; [reflexivity|]).
  split; [|split; [|split]].
  - intros Hfin. eexists. split; [reflexivity|].
    rewrite (truthy_roundtrip _ Hfin). exact Hc.
  - intros Hfin. eexists. split; [reflexivity|].
    rewrite (truthy_roundtrip _ Hfin). exact Hs.
  - intros Hfin.
    assert (Hfin' : is_infinite (or_else (lookup_member "status" ms) (VString "draft"))
                    = false).
    { unfold or_else. destruct (truthy (lookup_member "status" ms)); [exact Hfin|].
      reflexivity. }
    eexists. split; [reflexivity|].
    assert (Ht : truthy (JSON.roundtrip
                           (or_else (lookup_member "status" ms) (VString "draft")))
                 = true).
    { rewrite (truthy_roundtrip _ Hfin'). apply or_else_draft_truthy. }
    split; [exact Ht|]. unfold or_else at 1. rewrite Ht. reflexivity.
  - intros Hinf. destruct (lookup_member "status" ms) as [| | |[|m e]| | |];
      try discriminate.
    cbn [is_infinite] in Hinf. unfold or_else.
    assert (Ht : truthy (VNum (Dec m e)) = true).
    { cbn [truthy]. unfold rounds_to_zero, rounds_to_infinity in *.
      destruct (Z.eqb_spec m 0) as [->|Hm].
      - exfalso. destruct (e <? 0) eqn:He; cbn in Hinf.
        + apply Z.leb_le in Hinf. apply Z.ltb_lt in He.
          assert (0 < (2 ^ 1024 - 2 ^ 970) * 10 ^ (- e)); [|lia].
          apply Z.mul_pos_pos; [reflexivity|]. apply Z.pow_pos_nonneg; lia.
        + rewrite Z.mul_0_l in Hinf. discriminate.
      - destruct (e <? 0) eqn:He; cbn [orb andb negb]; [|reflexivity].
        apply Z.leb_le in Hinf. apply Z.ltb_lt in He.
        apply negb_true_iff, Z.leb_gt.
        assert (Hp : 0 < 10 ^ (- e)) by (apply Z.pow_pos_nonneg; lia).
        assert (Ht : 1 < 2 ^ 1024 - 2 ^ 970) by reflexivity.
        assert (Hq : 0 < 2 ^ 1075) by reflexivity.
        nia. }
    rewrite Ht. cbn [JSON.roundtrip]. rewrite Hinf. reflexivity.
Qed.

Lemma enqueued_publish_job_fields_witness :
  exists job,
    BullMQ.getJob
      (snd (Publish.post (publish_data VUndefined VUndefined) Workers.publishQueue)) "1"
      = Some job /\
    BullMQ.state job = BullMQ.waiting /\
    getMember (BullMQ.data job) "scheduleDate" = Ok (JSON.roundtrip VUndefined) /\
    (is_infinite (VString "<p>Hello</p>") = false ->
     exists content,
       getMember (BullMQ.data job) "content" = Ok content /\ truthy content = true) /\
    (is_infinite seo_example = false ->
     exists seo,
       getMember (BullMQ.data job) "seo" = Ok seo /\ truthy seo = true) /\
    (is_infinite VUndefined = false ->
     exists status,
       getMember (BullMQ.data job) "status" = Ok status /\ truthy status = true /\
       or_else status (VString "draft") = status) /\
    (is_infinite VUndefined = true ->
     getMember (BullMQ.data job) "status" = Ok VNull).
Proof.
  apply (enqueued_publish_job_fields
           [("content", VString "<p>Hello</p>"); ("seo", seo_example);
            ("status", VUndefined); ("scheduleDate", VUndefined)]
           Workers.publishQueue).
  reflexivity.
Defined.

(** A generation job whose keywords are no array fails in the worker
    before any remote call, with a TypeError. *)
Lemma content_run_without_array
  (w : World) (job : BullMQ.Job) (topic keywords wordCount contentId : value) :
  getMember (BullMQ.data job) "topic" = Ok topic ->
  getMember (BullMQ.data job) "keywords" = Ok keywords ->
  getMember (BullMQ.data job) "wordCount" = Ok wordCount ->
  getMember (BullMQ.data job) "contentId" = Ok contentId ->
  is_array keywords = false ->
  snd (Workers.runContentJob w job) = [] /\
  exists e,
    name e = "TypeError" /\
    failed_with job (fst (Workers.runContentJob w job)) e.
Proof.
  intros Ht Hk Hw Hc Harr. unfold failed_with. run_worker.
  rewrite (ContentProperties.contentProcessor_steps w (BullMQ.mkJob _ _ _ _ _ _ _ _)
             topic keywords wordCount contentId Ht Hk Hw Hc).
  destruct (ToString topic) as [subject|e0] eqn:Et.
  - destruct (ContentProperties.draft_step_needs_array_keywords
                w topic keywords wordCount Harr) as (e & He & ->).
    cbn. split; [reflexivity|]. exists e. auto.
  - cbn. split; [reflexivity|]. exists e0.
    rewrite (ToString_throws _ _ Et). auto.
Qed.

(** The generate route lets keywords through that are no array (a string,
    a number, an object), and the job it enqueues for them can only fail:
    run by the content worker, whatever the LLM would answer, it throws a
    TypeError before any remote call is made, and ends failed with no
    result. *)
Theorem keywords_without_array_fail_in_worker
  (w : World) (uuid : string) (ms : list (string * value)) (q : BullMQ.Queue)
  (printed : string) :
  truthy (lookup_member "topic" ms) && truthy (lookup_member "keywords" ms)
    && truthy (lookup_member "wordCount" ms) = true ->
  ToString (lookup_member "wordCount" ms) = Ok printed ->
  is_array (lookup_member "keywords" ms) = false ->
  fst (Content.generate uuid (VObject ms) q) = generation_started uuid q /\
  exists job e,
    BullMQ.getJob (snd (Content.generate uuid (VObject ms) q))
                  (digits (BullMQ.counter q + 1)) = Some job /\
    snd (Workers.runContentJob w job) = [] /\
    name e = "TypeError" /\
    failed_with job (fst (Workers.runContentJob w job)) e.
Proof.
  intros Hacc Hp Harr. rewrite generate_by_body, Hacc. unfold parseInt. rewrite Hp.
  cbn [fst snd]. split; [reflexivity|]. rewrite getJob_added.
  assert (Hnd : List.NoDup (map fst
            [("contentId", VString uuid);
             ("topic", lookup_member "topic" ms);
             ("keywords", lookup_member "keywords" ms);
             ("wordCount", VNum (parseInt_string printed))])).
  { cbn. repeat constructor; cbn; intuition discriminate. }
  destruct (content_run_without_array w
              (fst (BullMQ.add q "generate"
                      (generate_job_data uuid (lookup_member "topic" ms)
                         (lookup_member "keywords" ms) (parseInt_string printed))))
              (JSON.roundtrip (lookup_member "topic" ms))
              (JSON.roundtrip (lookup_member "keywords" ms))
              (JSON.roundtrip (VNum (parseInt_string printed)))
              (JSON.roundtrip (VString uuid)))
    as (Hcalls & e & He & Hfail);
    try (unfold BullMQ.add, generate_job_data; cbn [fst BullMQ.data];
         rewrite (roundtrip_member _ _ Hnd); reflexivity).
  - rewrite roundtrip_is_array. exact Harr.
  - eexists _, e. split; [reflexivity|]. auto.
Qed.

Lemma keywords_without_array_fail_in_worker_witness :
  fst (Content.generate "0b8f7a9e" (VObject keywords_as_text) Workers.contentQueue)
    = generation_started "0b8f7a9e" Workers.contentQueue /\
  exists job e,
    BullMQ.getJob
      (snd (Content.generate "0b8f7a9e" (VObject keywords_as_text) Workers.contentQueue))
      "1" = Some job /\
    snd (Workers.runContentJob llm_blank_replies job) = [] /\
    name e = "TypeError" /\
    failed_with job (fst (Workers.runContentJob llm_blank_replies job)) e.
Proof.
  apply (keywords_without_array_fail_in_worker llm_blank_replies "0b8f7a9e"
           keywords_as_text Workers.contentQueue "1500 words"); reflexivity.
Defined.

End SessionProperties.

(* ===================================================================== *)
(** * Properties of numerals and of the configuration                   *)
(* ===================================================================== *)

Module NumeralProperties.
Import JS Eff Examples MoreExamples Routes Views Tactics MoreTactics Sessions.
Import ConversionProperties SessionProperties.

Lemma read_digits_numeral (d : Decimal.uint) (acc : Z) :
  read_digits 10 (NilEmpty.string_of_uint d) (Some acc) = Some (uval acc d).
Proof.
  revert acc. induction d; intros acc; cbn [NilEmpty.string_of_uint uval];
    [reflexivity | ..]; cbn [read_digits default from_option];
    match goal with
    | |- context [digit_value ?r ?c] =>
        let v := eval vm_compute in (digit_value r c) in
        change (digit_value r c) with v
    end; cbn beta iota; apply IHd.
Qed.

Lemma of_uint_acc_uval (d : Decimal.uint) (acc : positive) :
  Z.pos (Pos.of_uint_acc d acc) = uval (Z.pos acc) d.
Proof.
  revert acc. induction d; intros acc; cbn [Pos.of_uint_acc uval];
    [reflexivity | ..]; rewrite IHd; f_equal; lia.
Qed.

Lemma of_uint_uval (d : Decimal.uint) : Z.of_N (Pos.of_uint d) = uval 0 d.
Proof.
  induction d; cbn [Pos.of_uint uval]; [reflexivity | exact IHd | ..];
    cbn [Z.of_N]; rewrite of_uint_acc_uval; reflexivity.
Qed.

Lemma uval_to_uint (n : N) : uval 0 (N.to_uint n) = Z.of_N n.
Proof.
  rewrite <- of_uint_uval. change (Pos.of_uint (N.to_uint n)) with (N.of_uint (N.to_uint n)).
  rewrite DecimalN.Unsigned.of_to. reflexivity.
Qed.

Lemma nzhead_not_D0 (d d' : Decimal.uint) : Decimal.nzhead d <> Decimal.D0 d'.
Proof. induction d; cbn; try discriminate. exact IHd. Qed.

Lemma unorm_D0 (d d' : Decimal.uint) : Decimal.unorm d = Decimal.D0 d' -> d' = Decimal.Nil.
Proof.
  unfold Decimal.unorm. destruct (Decimal.nzhead d) eqn:E; intros H;
    try discriminate; [injection H as <-; reflexivity|].
  exfalso. eapply nzhead_not_D0. exact E.
Qed.

Lemma to_uint_D0 (n : N) (d' : Decimal.uint) :
  N.to_uint n = Decimal.D0 d' -> d' = Decimal.Nil.
Proof.
  intros H. apply (unorm_D0 (N.to_uint n)).
  rewrite <- DecimalN.Unsigned.to_of, DecimalN.Unsigned.of_to. exact H.
Qed.

(** [parseInt] reads a decimal numeral back as the number it denotes. *)
Lemma parseInt_numeral (n : N) : parseInt_string (digits n) = Dec (Z.of_N n) 0.
Proof.
  rewrite <- (uval_to_uint n). unfold digits.
  destruct (N.to_uint n) as [|d|d|d|d|d|d|d|d|d|d] eqn:E;
    [ exfalso; destruct n; [discriminate|];
      eapply DecimalPos.Unsigned.to_uint_nonnil; exact E
    | apply to_uint_D0 in E; subst d; reflexivity
    | .. ];
    unfold parseInt_string;
    cbn [NilZero.string_of_uint NilEmpty.string_of_uint];
    rewrite trim_start_ascii by reflexivity;
    cbn [read_digits uval]; eval_chars; cbn beta iota;
    cbn [default from_option]; rewrite read_digits_numeral; f_equal; lia.
Qed.

Lemma strip_trailing_zeros_spec (s : string) :
  s = fst (strip_trailing_zeros s) +:+ zeros (Z.to_nat (snd (strip_trailing_zeros s))) /\
  0 <= snd (strip_trailing_zeros s) /\
  Z.of_nat (String.length s)
    = Z.of_nat (String.length (fst (strip_trailing_zeros s))) + snd (strip_trailing_zeros s).
Proof.
  induction s as [|c r IH]; [cbn; split; [reflexivity|lia]|].
  cbn [strip_trailing_zeros]. destruct (strip_trailing_zeros r) as [r' z].
  cbn [fst snd] in *. destruct IH as (Hr & Hz & Hl).
  destruct (String.eqb_spec r' "") as [->|Hne]; cbn [andb].
  - destruct (Ascii.eqb_spec c "0") as [->|Hc]; cbn [fst snd].
    + cbn in Hr, Hl. subst r. split; [|split].
      * replace (Z.to_nat (z + 1)) with (Datatypes.S (Z.to_nat z)) by lia. reflexivity.
      * lia.
      * cbn [String.length] in *. lia.
    + cbn in Hr. subst r. cbn [fst snd String.length] in *. split; [reflexivity|]. lia.
  - cbn [fst snd]. split; [|cbn [String.length]; lia].
    change (String c r' +:+ zeros (Z.to_nat z)) with (String c (r' +:+ zeros (Z.to_nat z))).
    f_equal. exact Hr.
Qed.

(** A numeral of [k] digits denotes a number below [10^k]. *)
Lemma uval_bound (d : Decimal.uint) (acc : Z) :
  0 <= acc ->
  uval acc d < (acc + 1) * 10 ^ Z.of_nat (String.length (NilEmpty.string_of_uint d)).
Proof.
  revert acc.
  induction d as [|d IH|d IH|d IH|d IH|d IH|d IH|d IH|d IH|d IH|d IH]; intros acc Hacc;
    cbn [uval NilEmpty.string_of_uint String.length]; [cbn; lia | ..];
    rewrite Nat2Z.inj_succ, Z.pow_succ_r by lia;
    match goal with
    | |- uval ?a _ < _ => specialize (IH a ltac:(lia))
    end;
    assert (0 < 10 ^ Z.of_nat (String.length (NilEmpty.string_of_uint d)))
      by (apply Z.pow_pos_nonneg; lia);
    nia.
Qed.

Lemma numeral_bound (n : N) : Z.of_N n < 10 ^ Z.of_nat (String.length (digits n)).
Proof.
  rewrite <- (uval_to_uint n). unfold digits.
  pose proof (uval_bound (N.to_uint n) 0 ltac:(lia)) as H.
  destruct (N.to_uint n); [cbn; lia | ..]; cbn [NilZero.string_of_uint]; lia.
Qed.

(** A positive integer of at most 21 digits is finite. *)
Lemma short_numeral_finite (p : positive) :
  (String.length (digits (Npos p)) <= 21)%nat ->
  rounds_to_infinity (Z.pos p) 0 = false.
Proof.
  intros Hlen. unfold rounds_to_infinity. cbn [Z.ltb Z.compare Z.abs].
  apply Z.leb_gt. rewrite Z.pow_0_r, Z.mul_1_r.
  pose proof (numeral_bound (Npos p)) as Hb. cbn [Z.of_N] in Hb.
  assert (Hp : 10 ^ Z.of_nat (String.length (digits (Npos p))) <= 10 ^ 21)
    by (apply Z.pow_le_mono_r; lia).
  assert (Ht : 10 ^ 21 < 2 ^ 1024 - 2 ^ 970) by reflexivity.
  lia.
Qed.

(** A positive integer of at most 21 digits prints as its numeral. *)
Lemma Number_toString_positive (p : positive) :
  (String.length (digits (Npos p)) <= 21)%nat ->
  Number_toString (Dec (Z.pos p) 0) = digits (Npos p).
Proof.
  intros Hlen. unfold Number_toString. rewrite (short_numeral_finite p Hlen).
  change (rounds_to_zero (Z.pos p) 0) with false.
  cbn [Z.ltb Z.compare Z.abs_N].
  pose proof (strip_trailing_zeros_spec (digits (Npos p))) as (Hs & Hz & Hl).
  destruct (strip_trailing_zeros (digits (Npos p))) as [s' z]. cbn [fst snd] in *.
  assert (H1 : (Z.of_nat (String.length s') <=? Z.of_nat (String.length s') + (0 + z)) = true)
    by (apply Z.leb_le; lia).
  assert (H2 : (Z.of_nat (String.length s') + (0 + z) <=? 21) = true)
    by (apply Z.leb_le; lia).
  rewrite H1, H2. cbn [andb append].
  replace (Z.of_nat (String.length s') + (0 + z) - Z.of_nat (String.length s')) with z by lia.
  symmetry. exact Hs.
Qed.

(** [parseInt] of a positive integer of at most 21 digits is that
    integer. *)
Lemma parseInt_positive (p : positive) :
  (String.length (digits (Npos p)) <= 21)%nat ->
  parseInt (VNum (Dec (Z.pos p) 0)) = Ok (Dec (Z.pos p) 0).
Proof.
  intros Hlen. unfold parseInt. cbn [ToString].
  rewrite (Number_toString_positive p Hlen). f_equal. apply (parseInt_numeral (Npos p)).
Qed.

Lemma digits_truthy (n : N) : truthy (VString (digits n)) = true.
Proof. unfold digits. destruct (N.to_uint n); reflexivity. Qed.

(** A word count that is a whole number is enqueued as that number: a
    positive integer of at most 15 digits sent as a JSON number, and a
    decimal numeral of at most 15 digits sent as a string.  The numeral 0
    sent as a string is accepted and enqueued as 0, although the number 0
    is turned away. *)
Theorem integer_word_count_is_kept
  (uuid : string) (q : BullMQ.Queue) (topic keywords : value) :
  truthy topic = true -> truthy keywords = true ->
  (forall p : positive,
      (String.length (digits (Npos p)) <= 15)%nat ->
      Content.generate uuid (generate_body topic keywords (int (Z.pos p))) q
        = (generation_started uuid q,
           snd (BullMQ.add q "generate"
                  (VObject [("contentId", VString uuid); ("topic", topic);
                            ("keywords", keywords); ("wordCount", int (Z.pos p))])))) /\
  (forall n : N,
      (String.length (digits n) <= 15)%nat ->
      Content.generate uuid (generate_body topic keywords (VString (digits n))) q
        = (generation_started uuid q,
           snd (BullMQ.add q "generate"
                  (VObject [("contentId", VString uuid); ("topic", topic);
                            ("keywords", keywords); ("wordCount", int (Z.of_N n))])))).
Proof.
  intros Ht Hk. unfold generate_body. split.
  - intros p Hlen. rewrite generate_by_body.
    cbn [lookup_member String.eqb Ascii.eqb Bool.eqb]. rewrite Ht, Hk.
    unfold generate_job_data, int. rewrite (parseInt_positive p); [reflexivity | lia].
  - intros n _. rewrite generate_by_body.
    cbn [lookup_member String.eqb Ascii.eqb Bool.eqb]. rewrite Ht, Hk, digits_truthy.
    unfold generate_job_data, parseInt. cbn [ToString andb].
    rewrite parseInt_numeral. reflexivity.
Qed.

Lemma integer_word_count_is_kept_witness :
  Content.generate "0b8f7a9e"
      (generate_body (VString "AI in Healthcare") (VArray [VString "care"]) (int 1500))
      Workers.contentQueue
    = (generation_started "0b8f7a9e" Workers.contentQueue,
       snd (BullMQ.add Workers.contentQueue "generate"
              (VObject [("contentId", VString "0b8f7a9e");
                        ("topic", VString "AI in Healthcare");
                        ("keywords", VArray [VString "care"]);
                        ("wordCount", int 1500)]))).
Proof.
  apply (proj1 (integer_word_count_is_kept "0b8f7a9e" Workers.contentQueue
                  (VString "AI in Healthcare") (VArray [VString "care"])
                  eq_refl eq_refl) 1500%positive).
  vm_compute. lia.
Defined.



End NumeralProperties.

(* ===================================================================== *)
(** * Further properties of the publishing worker                       *)
(* ===================================================================== *)

Module WorkerProperties.
Import JS Eff Examples MoreExamples Tactics MoreTactics Sessions ConversionProperties.

(** Whatever the job and the remote services, a publishing job makes no
    call, or the create-post call alone, or the create-post call followed
    by one update of the post just created; the update is made only for a
    truthy schedule date and only after the site answered the create-post
    call. *)
Theorem publish_calls_shape (w : World) (job : BullMQ.Job) :
  snd (Workers.runPublishJob w job) = [] \/
  (exists created, snd (Workers.runPublishJob w job) = [Http POST "/posts" created]) \/
  (exists created post postId idText scheduleDate date,
      snd (Workers.runPublishJob w job)
        = [Http POST "/posts" created;
           Http PUT ("/posts/" +:+ idText)
                (VObject [("status", VString "future"); ("date", VString date)])] /\
      getMember (BullMQ.data job) "scheduleDate" = Ok scheduleDate /\
      truthy scheduleDate = true /\
      axios w [] POST "/posts" created = Ok post /\
      getMember post "id" = Ok postId /\
      ToString postId = Ok idText /\
      toISOString w (Date_of w scheduleDate) = Ok date).
Proof.
  destruct (Workers.runPublishJob w job) as [job' calls] eqn:Hrun. cbn [snd].
  revert Hrun. run_processor. intros Hrun.
  all_steps Hrun; injection Hrun as <- <-;
    repeat match goal with
           | H : Date_from _ _ = Ok _ |- _ => apply Date_from_ok in H; subst
           end;
    first [ left; reflexivity
          | right; left; eexists; reflexivity
          | right; right; eexists _, _, _, _, _, _;
            split; [reflexivity|]; repeat split; eauto ].
Qed.

(** When the first log line has been printed and the site rejects the
    create-post call, the publishing job fails with the message of that
    rejection after this one call: the post is not scheduled and no second
    call is made, whatever the schedule date. *)
Theorem create_failure_fails_job
  (w : World) (job : BullMQ.Job)
  (content seo status scheduleDate title description : value)
  (titleText : string) (e : error) :
  publish_reads job content seo status scheduleDate title description ->
  ToString title = Ok titleText ->
  axios w [] POST "/posts" (new_post title content description status) = Throw e ->
  failed_with job (fst (Workers.runPublishJob w job)) e /\
  snd (Workers.runPublishJob w job)
    = [Http POST "/posts" (new_post title content description status)].
Proof.
  intros Hreads Hprint Hpost. unfold failed_with. run_publish Hreads.
  rewrite Hprint, Hpost. cbn. auto.
Qed.

Lemma create_failure_fails_job_witness :
  failed_with scheduled_job (fst (Workers.runPublishJob site_down scheduled_job)) status503 /\
  snd (Workers.runPublishJob site_down scheduled_job) = [Http POST "/posts" created_draft].
Proof.
  apply (create_failure_fails_job site_down scheduled_job
           (VString "<p>Hello</p>") seo_example (VString "draft") (VString iso_2030)
           (VString "AI in Healthcare")
           (VString "How machine learning changes patient care.")
           "AI in Healthcare" status503).
  - repeat split; reflexivity.
  - reflexivity.
  - reflexivity.
Defined.

(** A title that cannot be converted to a string (an object with a
    property named toString) fails the publishing job at its first log
    line, before any call is made: no post is created. *)
Theorem unprintable_title_fails_job
  (w : World) (job : BullMQ.Job)
  (content seo status scheduleDate title : value) (e : error) :
  getMember (BullMQ.data job) "content" = Ok content ->
  getMember (BullMQ.data job) "seo" = Ok seo ->
  getMember (BullMQ.data job) "status" = Ok status ->
  getMember (BullMQ.data job) "scheduleDate" = Ok scheduleDate ->
  getMember seo "title" = Ok title ->
  ToString title = Throw e ->
  failed_with job (fst (Workers.runPublishJob w job)) e /\
  snd (Workers.runPublishJob w job) = [].
Proof.
  intros Hc Hs Hst Hsd Ht Hprint. unfold failed_with. run_processor.
  rewrite Hc, Hs, Hst, Hsd, Ht, Hprint. cbn. auto.
Qed.

Lemma unprintable_title_fails_job_witness :
  failed_with unprintable_job
    (fst (Workers.runPublishJob site_ok unprintable_job)) cannot_convert /\
  snd (Workers.runPublishJob site_ok unprintable_job) = [].
Proof.
  apply (unprintable_title_fails_job site_ok unprintable_job
           (VString "<p>Hello</p>")
           (VObject [("title", VObject [("toString", int 1)])])
           (VString "draft") VUndefined
           (VObject [("toString", int 1)]) cannot_convert); reflexivity.
Defined.

(** A truthy schedule date that [new Date] makes an Invalid Date of costs
    the job after the post was created: once the post id is in the address
    of the update, [toISOString] throws before the update is sent, so the
    only call is the create-post call, and the job fails with the reason
    Invalid time value. *)
Theorem invalid_schedule_date_fails_job
  (w : World) (job : BullMQ.Job)
  (content seo status scheduleDate title description post postId : value)
  (titleText idText : string) :
  publish_reads job content seo status scheduleDate title description ->
  ToString title = Ok titleText ->
  truthy scheduleDate = true ->
  Date_from w scheduleDate = Ok None ->
  axios w [] POST "/posts" (new_post title content description status) = Ok post ->
  getMember post "id" = Ok postId ->
  ToString postId = Ok idText ->
  failed_with job (fst (Workers.runPublishJob w job)) (RangeError "Invalid time value") /\
  snd (Workers.runPublishJob w job)
    = [Http POST "/posts" (new_post title content description status)].
Proof.
  intros Hreads Hprint Htr Hdate Hpost Hid Hidt. unfold failed_with.
  run_publish Hreads.
  rewrite Hprint, Hpost. cbn. rewrite Htr, Hid. cbn. rewrite Hdate. cbn.
  rewrite Hidt. cbn. auto.
Qed.

Lemma invalid_schedule_date_fails_job_witness :
  failed_with badly_scheduled_job
    (fst (Workers.runPublishJob site_ok badly_scheduled_job))
    (RangeError "Invalid time value") /\
  snd (Workers.runPublishJob site_ok badly_scheduled_job)
    = [Http POST "/posts" created_draft].
Proof.
  apply (invalid_schedule_date_fails_job site_ok badly_scheduled_job
           (VString "<p>Hello</p>") seo_example (VString "draft") (VString "next week")
           (VString "AI in Healthcare")
           (VString "How machine learning changes patient care.") post42 (int 42)
           "AI in Healthcare" "42").
  - repeat split; reflexivity.
  - reflexivity.
  - reflexivity.
  - reflexivity.
  - reflexivity.
  - reflexivity.
  - reflexivity.
Defined.

(** A publishing job with a valid schedule date whose log lines print and
    whose two calls succeed completes after exactly these two calls: the
    post is created, then updated at [/posts/<id>] to the status future and
    the ISO form of the date.  The stored result is built from the answer
    to the create-post call and from the clock: the answer to the update is
    dropped, and [publishedAt] is the time the job finished, not the
    schedule date. *)
Theorem scheduled_publish_outcome
  (w : World) (job : BullMQ.Job) (t : Z)
  (content seo status scheduleDate title description post postId link updated : value)
  (titleText idText : string) :
  publish_reads job content seo status scheduleDate title description ->
  ToString title = Ok titleText ->
  truthy scheduleDate = true ->
  Date_from w scheduleDate = Ok (Some t) ->
  axios w [] POST "/posts" (new_post title content description status) = Ok post ->
  getMember post "id" = Ok postId ->
  ToString postId = Ok idText ->
  getMember post "link" = Ok link ->
  axios w [Http POST "/posts" (new_post title content description status)]
        PUT ("/posts/" +:+ idText)
        (VObject [("status", VString "future"); ("date", VString (iso w t))]) = Ok updated ->
  BullMQ.state (fst (Workers.runPublishJob w job)) = BullMQ.completed /\
  snd (Workers.runPublishJob w job)
    = [Http POST "/posts" (new_post title content description status);
       Http PUT ("/posts/" +:+ idText)
            (VObject [("status", VString "future"); ("date", VString (iso w t))])] /\
  BullMQ.returnvalue (fst (Workers.runPublishJob w job))
    = JSON.roundtrip
        (VObject [("wordpressId", postId);
                  ("wordpressUrl", link);
                  ("publishedAt",
                   VString (iso w (now w (snd (Workers.runPublishJob w job)))))]).
Proof.
  intros Hreads Hprint Htr Hdate Hpost Hid Hidt Hlink Hput. run_publish Hreads.
  rewrite Hprint, Hpost. cbn. rewrite Htr, Hid. cbn. rewrite Hdate. cbn.
  rewrite Hidt. cbn. rewrite Hput. cbn. rewrite Hlink. cbn. auto.
Qed.

Lemma scheduled_publish_outcome_witness :
  BullMQ.state (fst (Workers.runPublishJob site_ok scheduled_job)) = BullMQ.completed /\
  snd (Workers.runPublishJob site_ok scheduled_job)
    = [Http POST "/posts" created_draft;
       Http PUT "/posts/42"
            (VObject [("status", VString "future"); ("date", VString iso_2030)])] /\
  BullMQ.returnvalue (fst (Workers.runPublishJob site_ok scheduled_job))
    = JSON.roundtrip
        (VObject [("wordpressId", int 42);
                  ("wordpressUrl", VString "https://blog.example/?p=42");
                  ("publishedAt", VString "2026-01-01T00:00:00.000Z")]).
Proof.
  apply (scheduled_publish_outcome site_ok scheduled_job 1893456000000
           (VString "<p>Hello</p>") seo_example (VString "draft") (VString iso_2030)
           (VString "AI in Healthcare")
           (VString "How machine learning changes patient care.")
           post42 (int 42) (VString "https://blog.example/?p=42") post42
           "AI in Healthcare" "42").
  - repeat split; reflexivity.
  - reflexivity.
  - reflexivity.
  - reflexivity.
  - reflexivity.
  - reflexivity.
  - reflexivity.
  - reflexivity.
  - reflexivity.
Defined.

(** The publish processor does not check what the site answers to the
    create-post call.  An answer without a body ([null] or [undefined])
    fails the job with a TypeError although the call succeeded.  Any other
    answer to a job without schedule date completes the job, whether or not
    it has an id or a link, provided what it has as its id can be converted
    to a string for the last log line; if it cannot, the job fails with
    that conversion's error, after the post was created. *)
Theorem create_answer_is_not_checked
  (w : World) (job : BullMQ.Job)
  (content seo status scheduleDate title description post : value)
  (titleText : string) :
  publish_reads job content seo status scheduleDate title description ->
  ToString title = Ok titleText ->
  axios w [] POST "/posts" (new_post title content description status) = Ok post ->
  (is_nullish post = true ->
   snd (Workers.runPublishJob w job)
     = [Http POST "/posts" (new_post title content description status)] /\
   exists msg, failed_with job (fst (Workers.runPublishJob w job)) (TypeError msg)) /\
  (is_nullish post = false -> truthy scheduleDate = false ->
   forall postId,
     getMember post "id" = Ok postId ->
     snd (Workers.runPublishJob w job)
       = [Http POST "/posts" (new_post title content description status)] /\
     (forall idText,
         ToString postId = Ok idText ->
         BullMQ.state (fst (Workers.runPublishJob w job)) = BullMQ.completed) /\
     (forall e,
         ToString postId = Throw e ->
         failed_with job (fst (Workers.runPublishJob w job)) e)).
Proof.
  intros Hreads Hprint Hpost. unfold failed_with. split.
  - intros Hn. run_publish Hreads. rewrite Hprint, Hpost. cbn.
    destruct post; try discriminate; destruct (truthy scheduleDate); cbn; eauto.
  - intros Hn Hsd' postId Hid. run_publish Hreads. rewrite Hprint, Hpost. cbn.
    rewrite Hsd'. cbn. rewrite Hid. cbn.
    destruct (ToString postId) as [idText|e0]; cbn.
    + destruct (getMember post "link") as [link|e1] eqn:Hl;
        [|destruct post; discriminate].
      cbn. split; [reflexivity|]. split; [reflexivity|]. discriminate.
    + split; [reflexivity|]. split; [discriminate|].
      intros e H. injection H as <-. auto.
Qed.

Lemma create_answer_is_not_checked_witness :
  (snd (Workers.runPublishJob site_answering_nothing immediate_job)
     = [Http POST "/posts" created_publish] /\
   exists msg,
     failed_with immediate_job
       (fst (Workers.runPublishJob site_answering_nothing immediate_job))
       (TypeError msg)) /\
  (snd (Workers.runPublishJob site_answering_text immediate_job)
     = [Http POST "/posts" created_publish] /\
   BullMQ.state (fst (Workers.runPublishJob site_answering_text immediate_job))
     = BullMQ.completed).
Proof.
  split.
  - apply (proj1 (create_answer_is_not_checked site_answering_nothing immediate_job
             (VString "<p>Hello</p>") seo_example (VString "publish") VUndefined
             (VString "AI in Healthcare")
             (VString "How machine learning changes patient care.") VNull
             "AI in Healthcare"
             (conj eq_refl (conj eq_refl (conj eq_refl
                (conj eq_refl (conj eq_refl eq_refl))))) eq_refl eq_refl)).
    reflexivity.
  - pose proof (proj2 (create_answer_is_not_checked site_answering_text immediate_job
             (VString "<p>Hello</p>") seo_example (VString "publish") VUndefined
             (VString "AI in Healthcare")
             (VString "How machine learning changes patient care.") (VString "OK")
             "AI in Healthcare"
             (conj eq_refl (conj eq_refl (conj eq_refl
                (conj eq_refl (conj eq_refl eq_refl))))) eq_refl eq_refl)
             eq_refl eq_refl VUndefined eq_refl) as (Hcalls & Hdone & _).
    split; [exact Hcalls|]. apply (Hdone "undefined"). reflexivity.
Defined.

End WorkerProperties.

(* ===================================================================== *)
(** * Further properties of the generation pipeline                     *)
(* ===================================================================== *)

Module GenerationProperties.
Import JS Eff Examples MoreExamples Tactics MoreTactics Sessions.
Import ConversionProperties PersistenceProperties.

(** The draft step first prints the word count, the topic and the joined
    keywords into its prompt.  It throws without calling the LLM when the
    word count or the topic cannot be converted to a string, when the
    keywords are anything but an array, or when an element of the keywords
    cannot be converted.  Otherwise it makes exactly one call, throws when
    the completion has no choice, and returns the first choice's content,
    the empty string standing in for a null or empty one. *)
Theorem draft_step_outcome (w : World) (topic wordCount : value) (calls : list call) :
  (forall keywords e,
      ToString wordCount = Throw e ->
      LLMService.generateBlogPost w topic keywords wordCount calls = (Throw e, calls)) /\
  (forall keywords count e,
      ToString wordCount = Ok count ->
      ToString topic = Throw e ->
      LLMService.generateBlogPost w topic keywords wordCount calls = (Throw e, calls)) /\
  (forall count subject,
      ToString wordCount = Ok count ->
      ToString topic = Ok subject ->
      (forall keywords,
          is_array keywords = false ->
          exists msg,
            LLMService.generateBlogPost w topic keywords wordCount calls
              = (Throw (TypeError msg), calls)) /\
      (forall xs e,
          Array_join xs ", " = Throw e ->
          LLMService.generateBlogPost w topic (VArray xs) wordCount calls
            = (Throw e, calls)) /\
      (forall xs joined,
          Array_join xs ", " = Ok joined ->
          let request := LLMService.blogRequest subject count joined in
          (forall e, openai w calls request = Throw e ->
                     LLMService.generateBlogPost w topic (VArray xs) wordCount calls
                       = (Throw e, calls ++ [ChatCreate request])) /\
          (openai w calls request = Ok [] ->
           exists msg,
             LLMService.generateBlogPost w topic (VArray xs) wordCount calls
               = (Throw (TypeError msg), calls ++ [ChatCreate request])) /\
          (forall reply rest,
              openai w calls request = Ok (reply :: rest) ->
              LLMService.generateBlogPost w topic (VArray xs) wordCount calls
                = (Ok (string_or reply ""), calls ++ [ChatCreate request])))).
Proof.
  unfold LLMService.generateBlogPost, chat_completions_create, bind, lift, ret.
  split; [|split].
  - intros keywords e ->. reflexivity.
  - intros keywords count e -> ->. reflexivity.
  - intros count subject -> ->. split; [|split].
    + intros keywords Hk. destruct keywords; try discriminate; cbn; eexists; reflexivity.
    + intros xs e H. cbn [call_join]. rewrite H. reflexivity.
    + intros xs joined H. cbn [call_join]. rewrite H. cbn. repeat split.
      * intros e He. rewrite He. reflexivity.
      * intros He. rewrite He. cbn. eexists. reflexivity.
      * intros reply rest He. rewrite He. reflexivity.
Qed.

Lemma draft_step_outcome_witness :
  LLMService.generateBlogPost (scripted_llm [None]) (VString "AI")
      (VArray [VString "a"; VString "b"]) (int 500) []
    = (Ok "", [ChatCreate (LLMService.blogRequest "AI" "500" "a, b")]).
Proof.
  apply (proj2 (proj2
           (proj2 (proj2
              (proj2 (proj2 (draft_step_outcome (scripted_llm [None])
                               (VString "AI") (int 500) []))
                 "500" "AI" eq_refl eq_refl))
              [VString "a"; VString "b"] "a, b" eq_refl)) None []).
  reflexivity.
Defined.

(** The FAQ step makes exactly one call and never returns a falsy value.
    A null or empty reply is replaced by an object with no FAQs and gives
    the empty array; a reply that parses to an object gives its [faqs]
    member, or the empty array when that member is missing or falsy; a
    reply that parses to [null] makes the step throw a TypeError. *)
Theorem faq_step_outcome (w : World) (content : string) (calls : list call) :
  let request := LLMService.faqRequest content in
  let after := calls ++ [ChatCreate request] in
  snd (LLMService.generateFAQSchema w content calls) = after /\
  (forall v, fst (LLMService.generateFAQSchema w content calls) = Ok v ->
             truthy v = true) /\
  (forall reply rest,
      openai w calls request = Ok (reply :: rest) ->
      reply = None \/ reply = Some "" ->
      LLMService.generateFAQSchema w content calls = (Ok (VArray []), after)) /\
  (forall c reply rest ms,
      openai w calls request = Ok (Some (String c reply) :: rest) ->
      JSON.parse (String c reply) = Ok (VObject ms) ->
      LLMService.generateFAQSchema w content calls
        = (Ok (or_else (lookup_member "faqs" ms) (VArray [])), after)) /\
  (forall c reply rest,
      openai w calls request = Ok (Some (String c reply) :: rest) ->
      JSON.parse (String c reply) = Ok VNull ->
      exists msg,
        LLMService.generateFAQSchema w content calls = (Throw (TypeError msg), after)).
Proof.
  intros request after. subst request after.
  unfold LLMService.generateFAQSchema, chat_completions_create, bind, lift, ret.
  split; [|split; [|split; [|split]]].
  - destruct (openai w calls _) as [[|reply rest]|e]; cbn; try reflexivity.
    destruct (JSON.parse _) as [v|e]; cbn; [|reflexivity].
    destruct (getMember v "faqs"); reflexivity.
  - intros v. destruct (openai w calls _) as [[|reply rest]|e]; cbn; try discriminate.
    destruct (JSON.parse _) as [u|e]; cbn; [|discriminate].
    destruct (getMember u "faqs") as [f|e]; cbn; [|discriminate].
    intros H. injection H as <-. apply or_else_array_truthy.
  - intros reply rest H [-> | ->]; rewrite H; reflexivity.
  - intros c reply rest ms H Hp. rewrite H. cbn. rewrite Hp. reflexivity.
  - intros c reply rest H Hp. rewrite H. cbn. rewrite Hp. cbn. eexists. reflexivity.
Qed.

Lemma faq_step_outcome_witness :
  LLMService.generateFAQSchema (scripted_llm [Some (JSON.text "{'faqs': 0}")]) draft []
    = (Ok (VArray []), [ChatCreate (LLMService.faqRequest draft)]) /\
  (exists msg,
      LLMService.generateFAQSchema (scripted_llm [Some "null"]) draft []
        = (Throw (TypeError msg), [ChatCreate (LLMService.faqRequest draft)])).
Proof.
  split.
  - apply (proj1 (proj2 (proj2 (proj2 (faq_step_outcome
             (scripted_llm [Some (JSON.text "{'faqs': 0}")]) draft []))))
             "{"%char (JSON.text "'faqs': 0}") [] [("faqs", int 0)]); reflexivity.
  - apply (proj2 (proj2 (proj2 (proj2 (faq_step_outcome
             (scripted_llm [Some "null"]) draft []))))
             "n"%char "ull" []); reflexivity.
Defined.

(** Whatever the job and the LLM, a generation job calls nothing but the
    chat completion endpoint, at most three times and in the order draft,
    SEO, FAQ; the SEO and the FAQ request are both built from the draft the
    first call returned. *)
Theorem content_calls_shape (w : World) (job : BullMQ.Job) :
  snd (Workers.runContentJob w job) = [] \/
  exists topic wordCount joined,
    let first := ChatCreate (LLMService.blogRequest topic wordCount joined) in
    snd (Workers.runContentJob w job) = [first] \/
    exists reply rest,
      openai w [] (LLMService.blogRequest topic wordCount joined) = Ok (reply :: rest) /\
      let content := string_or reply "" in
      (snd (Workers.runContentJob w job)
         = [first; ChatCreate (LLMService.seoRequest content)] \/
       snd (Workers.runContentJob w job)
         = [first; ChatCreate (LLMService.seoRequest content);
            ChatCreate (LLMService.faqRequest content)]).
Proof.
  destruct (Workers.runContentJob w job) as [job' calls] eqn:Hrun. cbn [snd].
  revert Hrun. run_processor. intros Hrun.
  all_steps Hrun; injection Hrun as _ <-;
    first
      [ left; reflexivity
      | right; eexists _, _, _; cbn zeta;
        first
          [ left; reflexivity
          | right; eexists _, _; split; [eassumption|];
            first [ left; reflexivity | right; reflexivity ] ] ].
Qed.

(** A generation job that completed has a stored result in which
    [content] is a string and [seo] and [faqs] are present: none of them
    is lost when the result is stored.  The stored [faqs] is truthy, or
    [null] (what an infinite number is stored as). *)
Theorem completed_result_members (w : World) (job : BullMQ.Job) :
  BullMQ.state (fst (Workers.runContentJob w job)) = BullMQ.completed ->
  exists content seo faqs,
    getMember (BullMQ.returnvalue (fst (Workers.runContentJob w job))) "content"
      = Ok (VString content) /\
    getMember (BullMQ.returnvalue (fst (Workers.runContentJob w job))) "seo" = Ok seo /\
    seo <> VUndefined /\
    getMember (BullMQ.returnvalue (fst (Workers.runContentJob w job))) "faqs" = Ok faqs /\
    (truthy faqs = true \/ faqs = VNull).
Proof.
  destruct (Workers.runContentJob w job) as [job' calls] eqn:Hrun. cbn [fst].
  intros Hdone. revert Hrun. run_worker.
  remember JSON.roundtrip as persist eqn:Hp. run_processor. intros Hrun.
  repeat (next_step Hrun;
          try (injection Hrun as <- <-; cbn in Hdone; discriminate)).
  injection Hrun as <- _. cbn [BullMQ.returnvalue]. subst persist.
  match goal with
  | |- context [JSON.roundtrip (VObject ?ms)] =>
      assert (Hnd : List.NoDup (map fst ms))
        by (cbn; repeat constructor; cbn; intuition discriminate);
      eexists _, _, _; rewrite !(roundtrip_member ms _ Hnd)
  end.
  cbn [lookup_member String.eqb Ascii.eqb Bool.eqb].
  split; [reflexivity|]. split; [reflexivity|]. split; [|split; [reflexivity|]].
  - apply roundtrip_defined. eapply parse_defined. eassumption.
  - match goal with
    | |- context [or_else ?f (VArray [])] =>
        pose proof (or_else_array_truthy f) as Ht;
        destruct (is_infinite (or_else f (VArray []))) eqn:Hi
    end.
    + right. destruct (or_else _ _) as [| | |[|m e]| | |]; try discriminate.
      cbn [is_infinite] in Hi. cbn [JSON.roundtrip]. rewrite Hi. reflexivity.
    + left. rewrite (truthy_roundtrip _ Hi). exact Ht.
Qed.

Lemma completed_result_members_witness :
  exists content seo faqs,
    getMember (BullMQ.returnvalue
                 (fst (Workers.runContentJob llm_blank_replies generation_job))) "content"
      = Ok (VString content) /\
    getMember (BullMQ.returnvalue
                 (fst (Workers.runContentJob llm_blank_replies generation_job))) "seo"
      = Ok seo /\
    seo <> VUndefined /\
    getMember (BullMQ.returnvalue
                 (fst (Workers.runContentJob llm_blank_replies generation_job))) "faqs"
      = Ok faqs /\
    (truthy faqs = true \/ faqs = VNull).
Proof.
  apply (completed_result_members llm_blank_replies generation_job). reflexivity.
Defined.

(** The first code units of a text that starts with ASCII text. *)
Lemma substring_units_prefix (p t : string) :
  is_ascii p = true ->
  LLMService.substring_units (String.length p) (p +:+ t) = p.
Proof.
  induction p as [|c p IH]; cbn [is_ascii]; intros Hp; [reflexivity|].
  apply andb_prop in Hp as [Hc Hp].
  change (String c p +:+ t) with (String c (p +:+ t)).
  cbn [String.length LLMService.substring_units].
  assert (H : (nat_of_ascii c <? 192)%nat = true).
  { apply Nat.ltb_lt in Hc. apply Nat.ltb_lt. lia. }
  rewrite H, (IH Hp). reflexivity.
Qed.

(** Only the beginning of the draft reaches the two follow-up calls: two
    drafts that share their first 1000 characters give the same SEO
    request, and two that share their first 1500 give the same FAQ
    request, whatever follows.  (Stated for a shared beginning of ASCII
    text.) *)
Theorem draft_is_truncated (p t1 t2 : string) :
  is_ascii p = true ->
  (String.length p = 1000%nat ->
   LLMService.seoRequest (p +:+ t1) = LLMService.seoRequest (p +:+ t2)) /\
  (String.length p = 1500%nat ->
   LLMService.faqRequest (p +:+ t1) = LLMService.faqRequest (p +:+ t2)).
Proof.
  intros Hp. split; intros H.
  - unfold LLMService.seoRequest, LLMService.seoPrompt.
    rewrite <- H, !(substring_units_prefix p _ Hp). reflexivity.
  - unfold LLMService.faqRequest, LLMService.faqPrompt.
    rewrite <- H, !(substring_units_prefix p _ Hp). reflexivity.
Qed.

Lemma draft_is_truncated_witness :
  LLMService.seoRequest (zeros 1000 +:+ "<p>first ending</p>")
    = LLMService.seoRequest (zeros 1000 +:+ "<p>second ending</p>").
Proof.
  apply (proj1 (draft_is_truncated (zeros 1000) "<p>first ending</p>"
                  "<p>second ending</p>" ltac:(vm_compute; reflexivity))).
  vm_compute. reflexivity.
Defined.

End GenerationProperties.
